(** * Admission webhook of the manual approval gate

    A shallow embedding of [pkg/reconciler/webhook/webhook.go]: the
    admission decision [Admit] and its helpers [isApprovalRequired],
    [ifUserExists], [hasValidInputValue], [hasOnlyInputChanged],
    [IsUserApprovalChanged] and [CheckOtherUsersForInvalidChanges],
    followed by the properties of the decision engine.

    Conventions.
    - A Go [error] is an [option string]: [None] is [nil], [Some m] an
      error whose [Error()] text is [m].
    - A Go run-time panic (index out of range) is the outcome [Panic].
    - A [for] loop with early [return] is a recursion over the ranged
      list; the loop body is a function whose result [None] means "go on
      with the next iteration" and [Some r] means "return r".
    - Go [int] values are in [Z]; no arithmetic is done on them. *)

From Stdlib Require Import ZArith Bool.
From Stdlib.Strings Require Byte.
From stdpp Require Import base strings list gmap.

Local Open Scope string_scope.
#[local] Set Warnings "-clear-no-such-hyp".

(** ** Outcomes of code that may panic *)

Inductive outcome (A : Type) : Type :=
| Ret (a : A)
| Panic.
Arguments Ret {A} a.
Arguments Panic {A}.

(** ** API types ([pkg/apis/approvaltask/v1alpha1]) *)

Module v1alpha1.

Module UserDetails.
Record t : Type := mk { Name : string; Input : string }.
End UserDetails.

Module ApproverDetails.
Record t : Type := mk {
    Name : string;
    Input : string;
    Type' : string;
    Users : list UserDetails.t
  }.
End ApproverDetails.

(** Modelled from the spec: the declaration of the recorded responses
    is not part of the sources at hand; the webhook only takes the
    length of the list. *)
Module ApproverState.
Record t : Type := mk { Name : string; Response : string }.
End ApproverState.

Module ApprovalTaskSpec.
Record t : Type := mk {
    Approvers : list ApproverDetails.t;
    NumberOfApprovalsRequired : Z
  }.
End ApprovalTaskSpec.

Module ApprovalTaskStatus.
Record t : Type := mk {
    State : string;
    ApproversResponse : list ApproverState.t
  }.
End ApprovalTaskStatus.

Module ApprovalTask.
Record t : Type := mk {
    Spec : ApprovalTaskSpec.t;
    Status : ApprovalTaskStatus.t
  }.

(** The zero value of [var oldObj v1alpha1.ApprovalTask]. *)
Definition zero : t :=
    {| Spec := {| ApprovalTaskSpec.Approvers := [];
                  ApprovalTaskSpec.NumberOfApprovalsRequired := 0%Z |};
       Status := {| ApprovalTaskStatus.State := EmptyString;
                    ApprovalTaskStatus.ApproversResponse := [] |} |}.
End ApprovalTask.

(** Modelled from the spec: [DefaultedApproverType] lives in the API
    package, which is not part of the sources at hand.  The data model
    says of an approver's type: "enum {User, Group}, defaults to User
    when unset". *)
Definition DefaultedApproverType (approverType : string) : string :=
  if String.eqb approverType EmptyString then "User" else approverType.

End v1alpha1.

Import v1alpha1.

Abbreviation AD := ApproverDetails.t.
Abbreviation UD := UserDetails.t.

(** ** The admission request and response *)

Module UserInfo.
Record t : Type := mk { Username : string; Groups : list string }.
End UserInfo.

(** The raw bytes of an object body, identified with what the webhook
    does with them: [len(raw) == 0], or the JSON decoder (configured
    with or without [DisallowUnknownFields]) fails on them with an
    error, or it fills a zero-valued task with the decoded fields. *)
Inductive RawExtension : Type :=
| RawEmpty
| RawMalformed (err : string)
| RawTask (task : ApprovalTask.t).

Module AdmissionRequest.
Record t : Type := mk {
  Object : RawExtension;
  OldObject : RawExtension;
  UserInfo : UserInfo.t
}.
End AdmissionRequest.

Abbreviation Request := AdmissionRequest.t.

Definition Username (request : Request) : string :=
  UserInfo.Username (AdmissionRequest.UserInfo request).
Definition Groups (request : Request) : list string :=
  UserInfo.Groups (AdmissionRequest.UserInfo request).

Module AdmissionResponse.
(** [Result] is [None] for a response without a status and [Some m]
    for [&metav1.Status{Message: m}]. *)
Record t : Type := mk { Allowed : bool; Result : option string }.
End AdmissionResponse.

Definition deny (message : string) : AdmissionResponse.t :=
  {| AdmissionResponse.Allowed := false;
     AdmissionResponse.Result := Some message |}.

Definition allow : AdmissionResponse.t :=
  {| AdmissionResponse.Allowed := true;
     AdmissionResponse.Result := None |}.

(** [webhook.MakeErrorStatus(reason, err)]: a denial whose message is
    the formatted reason. *)
Definition MakeErrorStatus (reason err : string) : AdmissionResponse.t :=
  deny (String.append reason err).

(** ** The helpers of the webhook *)

Definition error : Type := option string.

Definition ifUserExists (approvals : list AD) (request : Request) : bool :=
  match approvals with
  | [] => true
  | _ =>
    existsb (fun approval =>
      let ty := DefaultedApproverType (ApproverDetails.Type' approval) in
      if String.eqb ty "User" then
        String.eqb (ApproverDetails.Name approval) (Username request)
      else if String.eqb ty "Group" then
        existsb (fun userGroup => String.eqb (ApproverDetails.Name approval) userGroup)
                (Groups request)
        || existsb (fun user => String.eqb (UserDetails.Name user) (Username request))
                   (ApproverDetails.Users approval)
      else false) approvals
  end.

Definition isApprovalRequired (approvaltask : ApprovalTask.t) : bool :=
  let state := ApprovalTaskStatus.State (ApprovalTask.Status approvaltask) in
  if String.eqb state "rejected" || String.eqb state "approved" then false
  else if Z.eqb
       (Z.of_nat (length (ApprovalTaskStatus.ApproversResponse (ApprovalTask.Status approvaltask))))
       (ApprovalTaskSpec.NumberOfApprovalsRequired (ApprovalTask.Spec approvaltask))
  then false
  else true.

Definition invalidInputMessage (input : string) : string :=
  String.append "invalid input value: '"
    (String.append input "'. Supported values are 'approve' or 'reject'").

Definition hasValidInputValue (input : string) : error :=
  if String.eqb input "approve" || String.eqb input "reject" then None
  else Some (invalidInputMessage input).

(** The recurring fragment
    [if err := hasValidInputValue(v); err != nil { return false, err }; return true, nil]. *)
Definition validated (input : string) : bool * error :=
  match hasValidInputValue input with
  | Some err => (false, Some err)
  | None => (true, None)
  end.

Definition hasOnlyInputChanged (oldObjApprover newObjApprover : AD) : bool * error :=
  if String.eqb (ApproverDetails.Name oldObjApprover) (ApproverDetails.Name newObjApprover)
     && negb (String.eqb (ApproverDetails.Input oldObjApprover)
                         (ApproverDetails.Input newObjApprover))
  then validated (ApproverDetails.Input newObjApprover)
  else (false, None).

(** The two loops that set [isUserInGroup]: the approver's name is one
    of the requester's groups, or the requester is listed in the
    group's users. *)
Definition isUserInGroup (approver : AD) (request : Request) : bool :=
  existsb (fun userGroup => String.eqb (ApproverDetails.Name approver) userGroup)
          (Groups request)
  || existsb (fun user => String.eqb (UserDetails.Name user) (Username request))
             (ApproverDetails.Users approver).

(** [for _, user := range users { if user.Name == currentUser { ...; break } }] *)
Definition findUser (currentUser : string) (users : list UD) : option UD :=
  find (fun user => String.eqb (UserDetails.Name user) currentUser) users.

(** The part of the body of the loop of [IsUserApprovalChanged] that is
    guarded by [isUserInGroup]; [newAt] is [newObjApprovers[i]] when
    [i < len(newObjApprovers)]. *)
Definition groupChange (approver : AD) (newAt : option AD) (currentUser : string)
  : option (bool * error) :=
  let groupLevel :=
    match newAt with
    | Some n =>
      if negb (String.eqb (ApproverDetails.Input approver) (ApproverDetails.Input n))
      then Some (validated (ApproverDetails.Input n))
      else None
    | None => None
    end in
  match groupLevel with
  | Some r => Some r
  | None =>
    let oldUserFound :=
      existsb (fun user => String.eqb (UserDetails.Name user) currentUser)
              (ApproverDetails.Users approver) in
    let newUserFound :=
      match newAt with
      | Some n => existsb (fun user => String.eqb (UserDetails.Name user) currentUser)
                          (ApproverDetails.Users n)
      | None => false
      end in
    if negb oldUserFound && newUserFound then
      match newAt with
      | Some n =>
        match findUser currentUser (ApproverDetails.Users n) with
        | Some user => Some (validated (UserDetails.Input user))
        | None => Some (true, None)
        end
      | None => Some (true, None)
      end
    else
      match findUser currentUser (ApproverDetails.Users approver),
            newAt ≫= (fun n => findUser currentUser (ApproverDetails.Users n)) with
      | Some oldUser, Some newUser =>
        if negb (String.eqb (UserDetails.Input oldUser) (UserDetails.Input newUser))
        then Some (validated (UserDetails.Input newUser))
        else None
      | _, _ => None
      end
  end.

(** The body of the loop of [IsUserApprovalChanged] at one index. *)
Definition changeAt (approver : AD) (newAt : option AD) (request : Request)
  : option (outcome (bool * error)) :=
  let currentUser := Username request in
  let ty := DefaultedApproverType (ApproverDetails.Type' approver) in
  if String.eqb (ApproverDetails.Name approver) currentUser && String.eqb ty "User" then
    match newAt with
    | Some n => Some (Ret (hasOnlyInputChanged approver n))
    | None => Some Panic
    end
  else if String.eqb ty "Group" then
    if isUserInGroup approver request
    then Ret <$> groupChange approver newAt currentUser
    else None
  else None.

Fixpoint IsUserApprovalChanged_from (i : nat) (oldObjApprovers newObjApprovers : list AD)
    (request : Request) : outcome (bool * error) :=
  match oldObjApprovers with
  | [] => Ret (false, None)
  | approver :: rest =>
    match changeAt approver (newObjApprovers !! i) request with
    | Some r => r
    | None => IsUserApprovalChanged_from (S i) rest newObjApprovers request
    end
  end.

Definition IsUserApprovalChanged (oldObjApprovers newObjApprovers : list AD)
    (request : Request) : outcome (bool * error) :=
  IsUserApprovalChanged_from 0 oldObjApprovers newObjApprovers request.

(** [make(map[string]string)] filled by ranging over the users. *)
Definition usersMap (users : list UD) : gmap string string :=
  foldl (fun m user => <[UserDetails.Name user := UserDetails.Input user]> m) ∅ users.

(** The [Group] part of the loop body of
    [CheckOtherUsersForInvalidChanges].  Every early exit of the two
    loops over the maps returns [false], so the order in which Go
    ranges over a map does not show. *)
Definition groupUntouched (approver : AD) (newAt : option AD) (request : Request) : bool :=
  let currentUser := Username request in
  let inGroup := isUserInGroup approver request in
  if negb inGroup
     && match newAt with
        | Some n => negb (String.eqb (ApproverDetails.Input approver) (ApproverDetails.Input n))
        | None => false
        end
  then false
  else
    let oldUsers := usersMap (ApproverDetails.Users approver) in
    let newUsers :=
      match newAt with
      | Some n => usersMap (ApproverDetails.Users n)
      | None => ∅
      end in
    forallb (fun '(userName, oldInput) =>
               if negb (String.eqb userName currentUser) then
                 match newUsers !! userName with
                 | Some newInput => String.eqb oldInput newInput
                 | None => true
                 end
               else true)
            (map_to_list oldUsers)
    && forallb (fun '(userName, _) =>
                  match oldUsers !! userName with
                  | None => String.eqb userName currentUser && inGroup
                  | Some _ => true
                  end)
               (map_to_list newUsers).

(** The body of the loop of [CheckOtherUsersForInvalidChanges]. *)
Definition checkAt (approver : AD) (newAt : option AD) (request : Request)
  : option (outcome bool) :=
  let currentUser := Username request in
  let ty := DefaultedApproverType (ApproverDetails.Type' approver) in
  let userPart : option (outcome bool) :=
    if String.eqb ty "User" && negb (String.eqb (ApproverDetails.Name approver) currentUser) then
      match newAt with
      | Some n =>
        if negb (String.eqb (ApproverDetails.Input approver) (ApproverDetails.Input n))
        then Some (Ret false)
        else None
      | None => Some Panic
      end
    else None in
  match userPart with
  | Some r => Some r
  | None =>
    if String.eqb ty "Group" then
      if groupUntouched approver newAt request then None else Some (Ret false)
    else None
  end.

Fixpoint CheckOtherUsersForInvalidChanges_from (i : nat)
    (oldObjApprovers newObjApprover : list AD) (request : Request) : outcome bool :=
  match oldObjApprovers with
  | [] => Ret true
  | approver :: rest =>
    match checkAt approver (newObjApprover !! i) request with
    | Some r => r
    | None => CheckOtherUsersForInvalidChanges_from (S i) rest newObjApprover request
    end
  end.

Definition CheckOtherUsersForInvalidChanges (oldObjApprovers newObjApprover : list AD)
    (request : Request) : outcome bool :=
  CheckOtherUsersForInvalidChanges_from 0 oldObjApprovers newObjApprover request.

(** ** The admission decision *)

Definition finalStateMessage : string :=
  "ApprovalTask has already reached it's final state".
Definition userMissingMessage : string :=
  "User does not exist in the approval list".
Definition ownInputOnlyMessage : string :=
  "User can only update their own approval input".
Definition invalidChangePrefix : string := "Invalid input change: ".

Definition approversOf (task : ApprovalTask.t) : list AD :=
  ApprovalTaskSpec.Approvers (ApprovalTask.Spec task).

(** The decision once both bodies are decoded (lines 144 to 173). *)
Definition decideChange (oldObj newObj : ApprovalTask.t) (request : Request)
  : outcome AdmissionResponse.t :=
  match IsUserApprovalChanged (approversOf oldObj) (approversOf newObj) request with
  | Panic => Panic
  | Ret (_, Some err) => Ret (deny (String.append invalidChangePrefix err))
  | Ret (true, None) =>
    match CheckOtherUsersForInvalidChanges (approversOf oldObj) (approversOf newObj) request with
    | Panic => Panic
    | Ret true => Ret allow
    | Ret false => Ret (deny ownInputOnlyMessage)
    end
  | Ret (false, None) => Ret (deny ownInputOnlyMessage)
  end.

(** [Admit].  The comparison of the request's kind with the handled
    kind only writes to the log and is left out. *)
Definition Admit (request : Request) : outcome AdmissionResponse.t :=
  let decodedOld : string + ApprovalTask.t :=
    match AdmissionRequest.OldObject request with
    | RawEmpty => inr ApprovalTask.zero
    | RawMalformed err => inl err
    | RawTask task => inr task
    end in
  match decodedOld with
  | inl err => Ret (MakeErrorStatus "cannot decode incoming old object: " err)
  | inr oldObj =>
    if negb (isApprovalRequired oldObj) then Ret (deny finalStateMessage)
    else if negb (ifUserExists (approversOf oldObj) request) then Ret (deny userMissingMessage)
    else
      match AdmissionRequest.Object request with
      | RawMalformed err => Ret (MakeErrorStatus "cannot decode incoming new object: " err)
      | RawEmpty => decideChange oldObj ApprovalTask.zero request
      | RawTask newObj => decideChange oldObj newObj request
      end
  end.

(** ** Building blocks for concrete requests *)

Definition user (name input : string) : AD :=
  {| ApproverDetails.Name := name; ApproverDetails.Input := input;
     ApproverDetails.Type' := "User"; ApproverDetails.Users := [] |}.

Definition group (name input : string) (users : list UD) : AD :=
  {| ApproverDetails.Name := name; ApproverDetails.Input := input;
     ApproverDetails.Type' := "Group"; ApproverDetails.Users := users |}.

Definition member (name input : string) : UD :=
  {| UserDetails.Name := name; UserDetails.Input := input |}.

(** A task with the given approvers, threshold, state and number of
    recorded responses. *)
Definition task (approvers : list AD) (required : Z) (state : string) (received : nat)
  : ApprovalTask.t :=
  {| ApprovalTask.Spec :=
       {| ApprovalTaskSpec.Approvers := approvers;
          ApprovalTaskSpec.NumberOfApprovalsRequired := required |};
     ApprovalTask.Status :=
       {| ApprovalTaskStatus.State := state;
          ApprovalTaskStatus.ApproversResponse :=
            replicate received (ApproverState.mk EmptyString EmptyString) |} |}.

Definition pending (approvers : list AD) : ApprovalTask.t :=
  task approvers 1 "pending" 0.

Definition requester (name : string) (groups : list string) : UserInfo.t :=
  {| UserInfo.Username := name; UserInfo.Groups := groups |}.

Definition update (oldObj newObj : ApprovalTask.t) (who : UserInfo.t) : Request :=
  {| AdmissionRequest.Object := RawTask newObj;
     AdmissionRequest.OldObject := RawTask oldObj;
     AdmissionRequest.UserInfo := who |}.

(** ** Notions used by the statements *)

Definition received (t : ApprovalTask.t) : Z :=
  Z.of_nat (length (ApprovalTaskStatus.ApproversResponse (ApprovalTask.Status t))).

Definition required (t : ApprovalTask.t) : Z :=
  ApprovalTaskSpec.NumberOfApprovalsRequired (ApprovalTask.Spec t).

Definition stateOf (t : ApprovalTask.t) : string :=
  ApprovalTaskStatus.State (ApprovalTask.Status t).

(** The closed tasks of the data model. *)
Definition closed (t : ApprovalTask.t) : Prop :=
  stateOf t = "approved" \/ stateOf t = "rejected" \/ received t = required t.

(** The kind of an entry after defaulting. *)
Definition isUserEntry (approver : AD) : Prop :=
  DefaultedApproverType (ApproverDetails.Type' approver) = "User".

Definition isGroupEntry (approver : AD) : Prop :=
  DefaultedApproverType (ApproverDetails.Type' approver) = "Group".

(** The member list of an entry holds a member of that name. *)
Definition listsMember (approver : AD) (name : string) : Prop :=
  exists u, u ∈ ApproverDetails.Users approver /\ UserDetails.Name u = name.

(** The requester belongs to a group entry: by one of their groups or
    as a listed member. *)
Definition belongsTo (request : Request) (approver : AD) : Prop :=
  ApproverDetails.Name approver ∈ Groups request
  \/ listsMember approver (Username request).

(** An entry matches the requester: a User entry of their name or a
    Group entry they belong to. *)
Definition matchesRequester (request : Request) (approval : AD) : Prop :=
  (isUserEntry approval /\ ApproverDetails.Name approval = Username request)
  \/ (isGroupEntry approval /\ belongsTo request approval).

(** The change sites of the search for a change, between an entry [a]
    of the old list and the entry [n] at the same index of the new
    list, with the new value found there: the input of the requester's
    own User entry, the input of a group the requester belongs to, the
    input of a member entry the requester adds for themselves, the
    input of the requester's existing member entry. *)
Inductive ChangeSite (request : Request) (a n : AD) : string -> Prop :=
| UserInput :
    isUserEntry a ->
    ApproverDetails.Name a = Username request ->
    ApproverDetails.Name n = ApproverDetails.Name a ->
    ApproverDetails.Input a <> ApproverDetails.Input n ->
    ChangeSite request a n (ApproverDetails.Input n)
| GroupInput :
    isGroupEntry a ->
    belongsTo request a ->
    ApproverDetails.Input a <> ApproverDetails.Input n ->
    ChangeSite request a n (ApproverDetails.Input n)
| MemberAdded (u : UD) :
    isGroupEntry a ->
    belongsTo request a ->
    ApproverDetails.Input a = ApproverDetails.Input n ->
    findUser (Username request) (ApproverDetails.Users a) = None ->
    findUser (Username request) (ApproverDetails.Users n) = Some u ->
    ChangeSite request a n (UserDetails.Input u)
| MemberInput (o u : UD) :
    isGroupEntry a ->
    belongsTo request a ->
    ApproverDetails.Input a = ApproverDetails.Input n ->
    findUser (Username request) (ApproverDetails.Users a) = Some o ->
    findUser (Username request) (ApproverDetails.Users n) = Some u ->
    UserDetails.Input o <> UserDetails.Input u ->
    ChangeSite request a n (UserDetails.Input u).

(** The search for a change goes past every index below [i]. *)
Definition passesOver (request : Request) (olds news : list AD) (i : nat) : Prop :=
  forall j a, j < i -> olds !! j = Some a -> changeAt a (news !! j) request = None.

(** The input a member list records for a name once it is loaded into
    a map: a later entry of the same name overrides an earlier one. *)
Definition recordedInput (users : list UD) (name : string) : option string :=
  UserDetails.Input <$> findUser name (reverse users).


(** The number of decision values that differ between the old and the
    new list, as the single-owner property counts them: the input of
    every entry, and the input of every member that the entry at the
    same index of the new list still holds under the same name. *)
Definition differingMembers (oldUsers newUsers : list UD) : nat :=
  length (List.filter
            (fun o =>
               match findUser (UserDetails.Name o) newUsers with
               | Some n => negb (String.eqb (UserDetails.Input o) (UserDetails.Input n))
               | None => false
               end) oldUsers).

Definition differingValuesAt (a n : AD) : nat :=
  (if String.eqb (ApproverDetails.Input a) (ApproverDetails.Input n) then 0 else 1)
  + differingMembers (ApproverDetails.Users a) (ApproverDetails.Users n).

Definition differingValues (olds news : list AD) : nat :=
  sum_list (zip_with differingValuesAt olds news).

(** The member list of the entry at the same index of the new list,
    empty when there is no such entry. *)
Definition newUsersAt (newAt : option AD) : list UD :=
  match newAt with
  | Some n => ApproverDetails.Users n
  | None => []
  end.

(** ** The registration of the webhook

    [Reconcile] and [reconcileValidatingWebhook] talk to collaborators
    outside the repository.  They are modelled by what the functions
    get from them: the two listers are caches, finite maps from keys to
    objects whose [Get] fails with a not-found error on a missing key;
    leader election, the comparison [kmp.SafeEqual] and the client's
    [Update] are functions held by the reconciler, with the results the
    code distinguishes.  Logging is left out.  Of the Kubernetes types
    the fields the code reads or writes are kept, with some of their
    neighbours; [DeepCopy] is the identity on immutable values, and a
    nil slice is the empty list. *)

#[global] Instance byte_eq_decision : EqDecision Byte.byte := Byte.byte_eq_dec.

Module NamespacedName.
Record t : Type := mk { Namespace : string; Name : string }.
End NamespacedName.

Module Secret.
Record t : Type := mk { Data : gmap string (list Byte.byte) }.
End Secret.

Module OwnerReference.
Record t : Type := mk { Kind : string; Name : string; UID : string }.
End OwnerReference.

Module ServiceReference.
Record t : Type := mk {
  Namespace : string;
  Name : string;
  Path : option string;
  Port : option Z
}.
End ServiceReference.

Module WebhookClientConfig.
Record t : Type := mk {
  URL : option string;
  Service : option ServiceReference.t;
  CABundle : list Byte.byte
}.
End WebhookClientConfig.

Module RuleWithOperations.
Record t : Type := mk {
  Operations : list string;
  APIGroups : list string;
  APIVersions : list string;
  Resources : list string;
  Scope : option string
}.
End RuleWithOperations.

Module ValidatingWebhook.
Record t : Type := mk {
  Name : string;
  ClientConfig : WebhookClientConfig.t;
  Rules : list RuleWithOperations.t;
  FailurePolicy : option string;
  SideEffects : option string;
  TimeoutSeconds : option Z;
  AdmissionReviewVersions : list string
}.
End ValidatingWebhook.

Module ValidatingWebhookConfiguration.
Record t : Type := mk {
  Name : string;
  ResourceVersion : string;
  Labels : gmap string string;
  OwnerReferences : list OwnerReference.t;
  Webhooks : list ValidatingWebhook.t
}.
End ValidatingWebhookConfiguration.

Abbreviation VW := ValidatingWebhook.t.
Abbreviation VWC := ValidatingWebhookConfiguration.t.

#[global] Instance OwnerReference_eq_dec : EqDecision OwnerReference.t.
Proof. solve_decision. Defined.
#[global] Instance ServiceReference_eq_dec : EqDecision ServiceReference.t.
Proof. solve_decision. Defined.
#[global] Instance WebhookClientConfig_eq_dec : EqDecision WebhookClientConfig.t.
Proof. solve_decision. Defined.
#[global] Instance RuleWithOperations_eq_dec : EqDecision RuleWithOperations.t.
Proof. solve_decision. Defined.
#[global] Instance ValidatingWebhook_eq_dec : EqDecision ValidatingWebhook.t.
Proof. solve_decision. Defined.
#[global] Instance ValidatingWebhookConfiguration_eq_dec :
  EqDecision ValidatingWebhookConfiguration.t.
Proof. solve_decision. Defined.

(** The errors [Reconcile] returns, by the place that makes them. *)
Inductive ReconcileError : Type :=
| SkipKey (key : string)
| SecretNotFound (namespace name : string)
| MissingKey (secretName key : string)
| WebhookNotFound (name : string)
| MissingService (name : string)
| DiffError (err : string)
| UpdateFailed (err : string).

(** What a run leaves behind: the error it returns ([None] is [nil])
    and the object it passed to the client's [Update], if it called
    it. *)
Module Run.
Record t : Type := mk { err : option ReconcileError; updated : option VWC }.
End Run.

Definition failed (e : ReconcileError) : Run.t :=
  {| Run.err := Some e; Run.updated := None |}.

Module reconciler.
Record t : Type := mk {
  key : NamespacedName.t;
  path : string;
  secretName : string;
  (** [system.Namespace()], read from the environment. *)
  systemNamespace : string;
  (** [IsLeaderFor] of the embedded [LeaderAwareFuncs]. *)
  IsLeaderFor : NamespacedName.t -> bool;
  (** The caches behind [secretlister] and [vwhlister]. *)
  secretlister : gmap (string * string) Secret.t;
  vwhlister : gmap string VWC;
  (** [kmp.SafeEqual]: an error or the verdict. *)
  SafeEqual : VWC -> VWC -> string + bool;
  (** [ValidatingWebhookConfigurations().Update]: [Some err] on failure. *)
  clientUpdate : VWC -> option string
}.
End reconciler.

(** [certresources.CACert] and [admissionregistrationv1.Update]. *)
Definition CACert : string := "ca-cert.pem".
Definition Update : string := "UPDATE".

(** [Path] implements [AdmissionController]. *)
Definition Path (ac : reconciler.t) : string := reconciler.path ac.

(** The [rules] of [reconcileValidatingWebhook]. *)
Definition rules : list RuleWithOperations.t :=
  [ {| RuleWithOperations.Operations := [Update];
       RuleWithOperations.APIGroups := ["openshift-pipelines.org"];
       RuleWithOperations.APIVersions := ["v1alpha1"];
       RuleWithOperations.Resources := ["approvaltask"; "approvaltasks"];
       RuleWithOperations.Scope := None |} ].

(** The three assignments of the loop body to [webhook.Webhooks[i]],
    for an entry with the service reference [svc]. *)
Definition setWebhook (wh : VW) (svc : ServiceReference.t) (caCert : list Byte.byte)
    (path : string) : VW :=
  {| ValidatingWebhook.Name := ValidatingWebhook.Name wh;
     ValidatingWebhook.ClientConfig :=
       {| WebhookClientConfig.URL :=
            WebhookClientConfig.URL (ValidatingWebhook.ClientConfig wh);
          WebhookClientConfig.Service :=
            Some {| ServiceReference.Namespace := ServiceReference.Namespace svc;
                    ServiceReference.Name := ServiceReference.Name svc;
                    ServiceReference.Path := Some path;
                    ServiceReference.Port := ServiceReference.Port svc |};
          WebhookClientConfig.CABundle := caCert |};
     ValidatingWebhook.Rules := rules;
     ValidatingWebhook.FailurePolicy := ValidatingWebhook.FailurePolicy wh;
     ValidatingWebhook.SideEffects := ValidatingWebhook.SideEffects wh;
     ValidatingWebhook.TimeoutSeconds := ValidatingWebhook.TimeoutSeconds wh;
     ValidatingWebhook.AdmissionReviewVersions :=
       ValidatingWebhook.AdmissionReviewVersions wh |}.

(** The loop [for i, wh := range webhook.Webhooks] of
    [reconcileValidatingWebhook]: entries of another name than the
    configuration's are skipped, an entry of that name without a
    service reference ends the function with an error, any other entry
    of that name is rewritten in place. *)
Fixpoint setWebhooks (name : string) (caCert : list Byte.byte) (path : string)
    (webhooks : list VW) : ReconcileError + list VW :=
  match webhooks with
  | [] => inr []
  | wh :: rest =>
    if negb (String.eqb (ValidatingWebhook.Name wh) name) then
      match setWebhooks name caCert path rest with
      | inl e => inl e
      | inr rest' => inr (wh :: rest')
      end
    else
      match WebhookClientConfig.Service (ValidatingWebhook.ClientConfig wh) with
      | None => inl (MissingService (ValidatingWebhook.Name wh))
      | Some svc =>
        match setWebhooks name caCert path rest with
        | inl e => inl e
        | inr rest' => inr (setWebhook wh svc caCert path :: rest')
        end
      end
  end.

(** The configuration with its owner references dropped and the given
    webhooks. *)
Definition withWebhooks (configured : VWC) (webhooks : list VW) : VWC :=
  {| ValidatingWebhookConfiguration.Name := ValidatingWebhookConfiguration.Name configured;
     ValidatingWebhookConfiguration.ResourceVersion :=
       ValidatingWebhookConfiguration.ResourceVersion configured;
     ValidatingWebhookConfiguration.Labels :=
       ValidatingWebhookConfiguration.Labels configured;
     ValidatingWebhookConfiguration.OwnerReferences := [];
     ValidatingWebhookConfiguration.Webhooks := webhooks |}.

Definition reconcileValidatingWebhook (ac : reconciler.t) (caCert : list Byte.byte) : Run.t :=
  match reconciler.vwhlister ac !! NamespacedName.Name (reconciler.key ac) with
  | None => failed (WebhookNotFound (NamespacedName.Name (reconciler.key ac)))
  | Some configuredWebhook =>
    match setWebhooks (ValidatingWebhookConfiguration.Name configuredWebhook) caCert (Path ac)
                      (ValidatingWebhookConfiguration.Webhooks configuredWebhook) with
    | inl e => failed e
    | inr webhooks =>
      let webhook := withWebhooks configuredWebhook webhooks in
      match reconciler.SafeEqual ac configuredWebhook webhook with
      | inl err => failed (DiffError err)
      | inr false =>
        match reconciler.clientUpdate ac webhook with
        | Some err => {| Run.err := Some (UpdateFailed err); Run.updated := Some webhook |}
        | None => {| Run.err := None; Run.updated := Some webhook |}
        end
      | inr true => {| Run.err := None; Run.updated := None |}
      end
    end
  end.

Definition Reconcile (r : reconciler.t) (key : string) : Run.t :=
  if negb (reconciler.IsLeaderFor r (reconciler.key r)) then failed (SkipKey key)
  else
    match reconciler.secretlister r !! (reconciler.systemNamespace r, reconciler.secretName r) with
    | None => failed (SecretNotFound (reconciler.systemNamespace r) (reconciler.secretName r))
    | Some secret =>
      match Secret.Data secret !! CACert with
      | None => failed (MissingKey (reconciler.secretName r) CACert)
      | Some caCert => reconcileValidatingWebhook r caCert
      end
    end.

(** A comparison that never fails and tells equal objects from
    different ones, and a reconciler over given caches that leads,
    compares with it and whose updates succeed. *)
Definition decideEqual (a b : VWC) : string + bool := inr (bool_decide (a = b)).

Definition leading (name path secretName namespace : string)
    (secrets : gmap (string * string) Secret.t) (configs : gmap string VWC) : reconciler.t :=
  {| reconciler.key := {| NamespacedName.Namespace := EmptyString;
                          NamespacedName.Name := name |};
     reconciler.path := path;
     reconciler.secretName := secretName;
     reconciler.systemNamespace := namespace;
     reconciler.IsLeaderFor := fun _ => true;
     reconciler.secretlister := secrets;
     reconciler.vwhlister := configs;
     reconciler.SafeEqual := decideEqual;
     reconciler.clientUpdate := fun _ => None |}.

(** The same reconciler once the cache of configurations has seen the
    object [w] under the key it watches. *)
Definition afterUpdate (r : reconciler.t) (w : VWC) : reconciler.t :=
  {| reconciler.key := reconciler.key r;
     reconciler.path := reconciler.path r;
     reconciler.secretName := reconciler.secretName r;
     reconciler.systemNamespace := reconciler.systemNamespace r;
     reconciler.IsLeaderFor := reconciler.IsLeaderFor r;
     reconciler.secretlister := reconciler.secretlister r;
     reconciler.vwhlister :=
       <[NamespacedName.Name (reconciler.key r) := w]> (reconciler.vwhlister r);
     reconciler.SafeEqual := reconciler.SafeEqual r;
     reconciler.clientUpdate := reconciler.clientUpdate r |}.

(** Building blocks for concrete registrations. *)
Definition webhookService : ServiceReference.t :=
  {| ServiceReference.Namespace := "openshift-pipelines";
     ServiceReference.Name := "manual-approval-webhook";
     ServiceReference.Path := None;
     ServiceReference.Port := Some 443%Z |}.

Definition hook (name : string) (service : option ServiceReference.t) : VW :=
  {| ValidatingWebhook.Name := name;
     ValidatingWebhook.ClientConfig :=
       {| WebhookClientConfig.URL := None;
          WebhookClientConfig.Service := service;
          WebhookClientConfig.CABundle := [] |};
     ValidatingWebhook.Rules := [];
     ValidatingWebhook.FailurePolicy := Some "Fail";
     ValidatingWebhook.SideEffects := Some "None";
     ValidatingWebhook.TimeoutSeconds := None;
     ValidatingWebhook.AdmissionReviewVersions := ["v1"] |}.

Definition registration (name : string) (owners : list OwnerReference.t)
    (webhooks : list VW) : VWC :=
  {| ValidatingWebhookConfiguration.Name := name;
     ValidatingWebhookConfiguration.ResourceVersion := "1";
     ValidatingWebhookConfiguration.Labels := ∅;
     ValidatingWebhookConfiguration.OwnerReferences := owners;
     ValidatingWebhookConfiguration.Webhooks := webhooks |}.

Definition certSecret (caCert : list Byte.byte) : Secret.t :=
  {| Secret.Data := {[ CACert := caCert ]} |}.

(** A registration with a foreign webhook that has no service
    reference and the webhook of the configuration's own name, a
    leading reconciler that finds it and a secret with a one-byte
    certificate, and the object its first run sends. *)
Definition sampleConfiguration : VWC :=
  registration "approval.webhook" [OwnerReference.mk "Deployment" "webhook" "u1"]
    [hook "other.webhook" None; hook "approval.webhook" (Some webhookService)].

Definition sampleReconciler : reconciler.t :=
  leading "approval.webhook" "/validate" "certs" "system"
    {[ ("system", "certs") := certSecret [Byte.x2d] ]}
    {[ "approval.webhook" := sampleConfiguration ]}.

Definition sampleUpdate : VWC :=
  withWebhooks sampleConfiguration
    [hook "other.webhook" None;
     setWebhook (hook "approval.webhook" (Some webhookService)) webhookService
                [Byte.x2d] "/validate"].

(** A registration in which one of the two webhooks of the
    configuration's name lacks its service reference, and a reconciler
    that finds it. *)
Definition incompleteConfiguration : VWC :=
  registration "approval.webhook" []
    [hook "approval.webhook" (Some webhookService); hook "approval.webhook" None].

Definition incompleteReconciler : reconciler.t :=
  leading "approval.webhook" "/validate" "certs" "system"
    {[ ("system", "certs") := certSecret [Byte.x2d] ]}
    {[ "approval.webhook" := incompleteConfiguration ]}.

(** ** Notions used by the further statements *)

(** Two entries of the new list that the decision cannot tell apart:
    the same name, input and members; the type of a new entry is
    never read. *)
Definition sameForDecision (n n' : AD) : Prop :=
  ApproverDetails.Name n = ApproverDetails.Name n'
  /\ ApproverDetails.Input n = ApproverDetails.Input n'
  /\ ApproverDetails.Users n = ApproverDetails.Users n'.

(** The same for the entries, present or absent, at one index of two
    new lists. *)
Definition sameAt (newAt newAt' : option AD) : Prop :=
  match newAt, newAt' with
  | Some n, Some n' => sameForDecision n n'
  | None, None => True
  | _, _ => False
  end.

(** Two new lists the decision cannot tell apart for an old list of
    length [len]: below [len] both have an entry or neither has, and
    the entries are the same for the decision. *)
Definition sameUpTo (len : nat) (news news' : list AD) : Prop :=
  forall j, j < len -> sameAt (news !! j) (news' !! j).

(** An entry whose type, after defaulting, is neither User nor Group. *)
Definition otherType (a : AD) : Prop := ~ isUserEntry a /\ ~ isGroupEntry a.

(** The messages of the denials of [Admit]. *)
Inductive DenialMessage : string -> Prop :=
| OldUndecodable (err : string) :
    DenialMessage (String.append "cannot decode incoming old object: " err)
| NewUndecodable (err : string) :
    DenialMessage (String.append "cannot decode incoming new object: " err)
| FinalState : DenialMessage finalStateMessage
| UserMissing : DenialMessage userMissingMessage
| OwnInputOnly : DenialMessage ownInputOnlyMessage
| InvalidValue (v : string) :
    v <> "approve" -> v <> "reject" ->
    DenialMessage (String.append invalidChangePrefix (invalidInputMessage v)).

(** ** The scenarios of the specification, run on the embedding *)

Example scenario1 :
  Admit (update (pending [user "alice" EmptyString]) (pending [user "alice" "approve"])
                (requester "alice" [])) = Ret allow.
Proof. vm_compute. reflexivity. Qed.

Example scenario2 :
  Admit (update (pending [user "alice" EmptyString]) (pending [user "alice" "approve"])
                (requester "bob" [])) = Ret (deny userMissingMessage).
Proof. vm_compute. reflexivity. Qed.

Example scenario3 :
  Admit (update (pending [user "alice" EmptyString; user "bob" EmptyString])
                (pending [user "alice" "approve"; user "bob" "reject"])
                (requester "alice" [])) = Ret (deny ownInputOnlyMessage).
Proof. vm_compute. reflexivity. Qed.

Example scenario4 :
  Admit (update (pending [group "qa" EmptyString [member "carol" EmptyString]])
                (pending [group "qa" EmptyString [member "carol" "approve"]])
                (requester "carol" ["qa"])) = Ret allow.
Proof. vm_compute. reflexivity. Qed.

Example scenario4_self_add :
  Admit (update (pending [group "qa" EmptyString []])
                (pending [group "qa" EmptyString [member "carol" "approve"]])
                (requester "carol" ["qa"])) = Ret allow.
Proof. vm_compute. reflexivity. Qed.

Example scenario5 :
  Admit (update (task [user "alice" EmptyString] 1 "pending" 1)
                (task [user "alice" "approve"] 1 "pending" 1)
                (requester "alice" [])) = Ret (deny finalStateMessage).
Proof. vm_compute. reflexivity. Qed.

Example scenario6 :
  Admit (update (pending [user "alice" EmptyString]) (pending [user "alice" "maybe"])
                (requester "alice" []))
  = Ret (deny "Invalid input change: invalid input value: 'maybe'. Supported values are 'approve' or 'reject'").
Proof. vm_compute. reflexivity. Qed.

(** ** Basic facts about the helpers *)

Lemma eqb_false_iff (a b : string) : String.eqb a b = false <-> a <> b.
Proof. apply String.eqb_neq. Qed.

Lemma existsb_name_In (name : string) (names : list string) :
  existsb (fun other => String.eqb name other) names = true <-> name ∈ names.
Proof.
  rewrite existsb_exists, list_elem_of_In. split.
  - intros (other & Hin & Heq). apply String.eqb_eq in Heq. by subst.
  - intros Hin. exists name. split; [done | apply String.eqb_refl].
Qed.

Lemma existsb_user_In (currentUser : string) (users : list UD) :
  existsb (fun user => String.eqb (UserDetails.Name user) currentUser) users = true
  <-> exists user, user ∈ users /\ UserDetails.Name user = currentUser.
Proof.
  rewrite existsb_exists. split.
  - intros (u & Hin & Heq). exists u. rewrite list_elem_of_In.
    by apply String.eqb_eq in Heq.
  - intros (u & Hin & Heq). exists u. rewrite <- list_elem_of_In.
    split; [done |]. by apply String.eqb_eq.
Qed.

Lemma hasValidInputValue_nil (input : string) :
  hasValidInputValue input = None <-> input = "approve" \/ input = "reject".
Proof.
  unfold hasValidInputValue.
  destruct (String.eqb_spec input "approve") as [-> | Ha]; simpl; [by split; auto |].
  destruct (String.eqb_spec input "reject") as [-> | Hr]; simpl; [by split; auto |].
  split; [done | by intros [? | ?]].
Qed.

Lemma hasValidInputValue_err (input : string) :
  input <> "approve" -> input <> "reject" ->
  hasValidInputValue input = Some (invalidInputMessage input).
Proof.
  intros Ha Hr. unfold hasValidInputValue.
  apply String.eqb_neq in Ha, Hr. by rewrite Ha, Hr.
Qed.

Lemma hasValidInputValue_cases (input : string) :
  ((input = "approve" \/ input = "reject") /\ hasValidInputValue input = None)
  \/ (input <> "approve" /\ input <> "reject"
      /\ hasValidInputValue input = Some (invalidInputMessage input)).
Proof.
  destruct (decide (input = "approve")) as [Ha | Ha];
    [left; split; [by left | by apply hasValidInputValue_nil; left] |].
  destruct (decide (input = "reject")) as [Hr | Hr];
    [left; split; [by right | by apply hasValidInputValue_nil; right] |].
  right. by auto using hasValidInputValue_err.
Qed.

Lemma isApprovalRequired_false (t : ApprovalTask.t) :
  isApprovalRequired t = false <-> closed t.
Proof.
  unfold isApprovalRequired, closed, stateOf, received, required.
  destruct (String.eqb_spec (ApprovalTaskStatus.State (ApprovalTask.Status t)) "rejected")
    as [-> | Hr]; simpl; [by split; auto |].
  destruct (String.eqb_spec (ApprovalTaskStatus.State (ApprovalTask.Status t)) "approved")
    as [-> | Ha]; simpl; [by split; auto |].
  destruct (Z.eqb_spec
    (Z.of_nat (length (ApprovalTaskStatus.ApproversResponse (ApprovalTask.Status t))))
    (ApprovalTaskSpec.NumberOfApprovalsRequired (ApprovalTask.Spec t))) as [He | He].
  - by split; auto.
  - split; [done | by intros [? | [? | ?]]].
Qed.

Lemma Admit_old_not_required (newRaw : RawExtension) (oldObj : ApprovalTask.t)
    (who : UserInfo.t) :
  isApprovalRequired oldObj = false ->
  Admit {| AdmissionRequest.Object := newRaw;
           AdmissionRequest.OldObject := RawTask oldObj;
           AdmissionRequest.UserInfo := who |} = Ret (deny finalStateMessage).
Proof. intros H. unfold Admit. simpl. by rewrite H. Qed.

Lemma Admit_open (newRaw : RawExtension) (oldObj : ApprovalTask.t) (who : UserInfo.t) :
  isApprovalRequired oldObj = true ->
  Admit {| AdmissionRequest.Object := newRaw;
           AdmissionRequest.OldObject := RawTask oldObj;
           AdmissionRequest.UserInfo := who |}
  = let request := {| AdmissionRequest.Object := newRaw;
                      AdmissionRequest.OldObject := RawTask oldObj;
                      AdmissionRequest.UserInfo := who |} in
    if ifUserExists (approversOf oldObj) request then
      match newRaw with
      | RawMalformed err => Ret (MakeErrorStatus "cannot decode incoming new object: " err)
      | RawEmpty => decideChange oldObj ApprovalTask.zero request
      | RawTask newObj => decideChange oldObj newObj request
      end
    else Ret (deny userMissingMessage).
Proof.
  intros H. unfold Admit. simpl. rewrite H. simpl.
  by destruct (ifUserExists _ _).
Qed.

(** C1. Whenever the old task is closed (state approved or rejected, or
    as many recorded responses as approvals required) the request is
    denied with the final-state message, for every requester and every
    new body, be it empty, malformed or decoded: the check comes before
    the eligibility test, before the decoding of the new body and
    before the search for a change and the check of the other
    approvers. *)
Theorem closed_task_always_denied (oldObj : ApprovalTask.t) (newRaw : RawExtension)
    (who : UserInfo.t) :
  closed oldObj ->
  Admit {| AdmissionRequest.Object := newRaw;
           AdmissionRequest.OldObject := RawTask oldObj;
           AdmissionRequest.UserInfo := who |} = Ret (deny finalStateMessage).
Proof.
  intros Hc. apply Admit_old_not_required. by apply isApprovalRequired_false.
Qed.

(** A closed task whose update would otherwise run into the search for
    a change with a new list that is too short. *)
Lemma closed_task_always_denied_witness :
  closed (task [user "alice" EmptyString] 1 "approved" 0)
  /\ Admit (update (task [user "alice" EmptyString] 1 "approved" 0)
                   (pending []) (requester "mallory" []))
     = Ret (deny finalStateMessage).
Proof.
  split; [by left |].
  apply (closed_task_always_denied (task [user "alice" EmptyString] 1 "approved" 0)
           (RawTask (pending [])) (requester "mallory" [])).
  by left.
Defined.

(** C10. A request without an old body (a create, say) is judged on the
    zero task, which has no recorded response and needs none: it is
    denied with the final-state message whatever the new body and the
    requester.  In general a task whose number of required approvals
    equals the number of its recorded responses, zero included, admits
    no update. *)
Theorem threshold_reached_denied :
  isApprovalRequired ApprovalTask.zero = false
  /\ received ApprovalTask.zero = 0%Z
  /\ required ApprovalTask.zero = 0%Z
  /\ (forall (newRaw : RawExtension) (who : UserInfo.t),
        Admit {| AdmissionRequest.Object := newRaw;
                 AdmissionRequest.OldObject := RawEmpty;
                 AdmissionRequest.UserInfo := who |} = Ret (deny finalStateMessage))
  /\ (forall (oldObj : ApprovalTask.t) (newRaw : RawExtension) (who : UserInfo.t),
        required oldObj = received oldObj ->
        isApprovalRequired oldObj = false
        /\ Admit {| AdmissionRequest.Object := newRaw;
                    AdmissionRequest.OldObject := RawTask oldObj;
                    AdmissionRequest.UserInfo := who |} = Ret (deny finalStateMessage)).
Proof.
  repeat split; try reflexivity.
  - apply isApprovalRequired_false. by right; right.
  - apply Admit_old_not_required, isApprovalRequired_false. by right; right.
Qed.

Lemma threshold_reached_denied_witness :
  required (task [user "alice" EmptyString] 0 "pending" 0)
  = received (task [user "alice" EmptyString] 0 "pending" 0)
  /\ Admit (update (task [user "alice" EmptyString] 0 "pending" 0)
                   (task [user "alice" "approve"] 0 "pending" 0)
                   (requester "alice" []))
     = Ret (deny finalStateMessage).
Proof.
  split; [reflexivity |].
  destruct threshold_reached_denied as (_ & _ & _ & _ & H).
  apply (H (task [user "alice" EmptyString] 0 "pending" 0)
           (RawTask (task [user "alice" "approve"] 0 "pending" 0))
           (requester "alice" [])).
  reflexivity.
Defined.

(** ** Eligibility *)

Lemma eligible_entry (request : Request) (approval : AD) :
  (let ty := DefaultedApproverType (ApproverDetails.Type' approval) in
   if String.eqb ty "User" then
     String.eqb (ApproverDetails.Name approval) (Username request)
   else if String.eqb ty "Group" then
     existsb (fun userGroup => String.eqb (ApproverDetails.Name approval) userGroup)
             (Groups request)
     || existsb (fun user => String.eqb (UserDetails.Name user) (Username request))
                (ApproverDetails.Users approval)
   else false) = true
  <-> matchesRequester request approval.
Proof.
  unfold matchesRequester, isUserEntry, isGroupEntry, belongsTo, listsMember. simpl.
  destruct (String.eqb_spec (DefaultedApproverType (ApproverDetails.Type' approval)) "User")
    as [Hu | Hu].
  - rewrite String.eqb_eq, Hu. split; [by left | intros [[_ ?] | [? _]]; done].
  - destruct (String.eqb_spec (DefaultedApproverType (ApproverDetails.Type' approval)) "Group")
      as [Hg | Hg].
    + rewrite orb_true_iff, existsb_name_In, existsb_user_In.
      split; [by right | intros [[? _] | [_ ?]]; done].
    + split; [done | intros [[? _] | [? _]]; done].
Qed.

Lemma ifUserExists_true (approvals : list AD) (request : Request) :
  ifUserExists approvals request = true
  <-> approvals = [] \/ exists approval, approval ∈ approvals /\ matchesRequester request approval.
Proof.
  destruct approvals as [| a rest]; [by split; auto |].
  unfold ifUserExists. rewrite existsb_exists. split.
  - intros (x & Hin & Hx). right. exists x.
    rewrite list_elem_of_In. split; [done |]. by apply eligible_entry.
  - intros [? | (x & Hin & Hx)]; [done |]. exists x.
    rewrite <- list_elem_of_In. split; [done |]. by apply eligible_entry.
Qed.

(** C4. The eligibility test holds for every requester when the old
    approver list is empty; for a non-empty list it holds exactly when
    some entry matches the requester (a User entry of their name, a
    Group entry named like one of their groups, a Group entry listing
    them as a member); when it fails on an open task the request is
    denied with the message that the user is not in the approval
    list. *)
Theorem eligibility_characterised :
  (forall request : Request, ifUserExists [] request = true)
  /\ (forall (approvals : list AD) (request : Request),
        approvals <> [] ->
        (ifUserExists approvals request = true
         <-> exists approval, approval ∈ approvals /\
               ((isUserEntry approval
                 /\ ApproverDetails.Name approval = Username request)
                \/ (isGroupEntry approval
                    /\ ApproverDetails.Name approval ∈ Groups request)
                \/ (isGroupEntry approval
                    /\ exists u, u ∈ ApproverDetails.Users approval
                                 /\ UserDetails.Name u = Username request))))
  /\ (forall (oldObj : ApprovalTask.t) (newRaw : RawExtension) (who : UserInfo.t),
        isApprovalRequired oldObj = true ->
        ifUserExists (approversOf oldObj)
          {| AdmissionRequest.Object := newRaw;
             AdmissionRequest.OldObject := RawTask oldObj;
             AdmissionRequest.UserInfo := who |} = false ->
        Admit {| AdmissionRequest.Object := newRaw;
                 AdmissionRequest.OldObject := RawTask oldObj;
                 AdmissionRequest.UserInfo := who |}
        = Ret (deny userMissingMessage)).
Proof.
  split; [done |]. split.
  - intros approvals request Hne. rewrite ifUserExists_true.
    unfold matchesRequester, belongsTo, listsMember. split.
    + intros [? | (a & Hin & Ha)]; [done |]. exists a. split; [done |].
      destruct Ha as [? | [? [? | ?]]]; auto.
    + intros (a & Hin & Ha). right. exists a. split; [done |].
      destruct Ha as [? | [[? ?] | [? ?]]]; auto.
  - intros oldObj newRaw who Hopen Hno.
    rewrite Admit_open by done. simpl. by rewrite Hno.
Qed.

Lemma eligibility_characterised_witness :
  [user "alice" EmptyString] <> []
  /\ isApprovalRequired (pending [user "alice" EmptyString]) = true
  /\ ifUserExists [user "alice" EmptyString]
       (update (pending [user "alice" EmptyString]) (pending [user "alice" "approve"])
               (requester "bob" [])) = false
  /\ Admit (update (pending [user "alice" EmptyString]) (pending [user "alice" "approve"])
                   (requester "bob" []))
     = Ret (deny userMissingMessage).
Proof.
  split; [done |]. split; [reflexivity |]. split; [reflexivity |].
  destruct eligibility_characterised as (_ & _ & H).
  apply (H (pending [user "alice" EmptyString])
           (RawTask (pending [user "alice" "approve"])) (requester "bob" []));
    reflexivity.
Defined.

(** C9 (as amended). The closed task is denied with the message
    "ApprovalTask has already reached it's final state" and the
    requester who matches no entry of an open task with the message
    "User does not exist in the approval list": the wording of the code,
    with its apostrophe and its capital letter. *)
Theorem denial_messages_verbatim (oldObj : ApprovalTask.t) (newRaw : RawExtension)
    (who : UserInfo.t) :
  let request := {| AdmissionRequest.Object := newRaw;
                    AdmissionRequest.OldObject := RawTask oldObj;
                    AdmissionRequest.UserInfo := who |} in
  (closed oldObj ->
   Admit request = Ret (deny "ApprovalTask has already reached it's final state"))
  /\ (~ closed oldObj ->
      approversOf oldObj <> [] ->
      (forall approval, approval ∈ approversOf oldObj -> ~ matchesRequester request approval) ->
      Admit request = Ret (deny "User does not exist in the approval list")).
Proof.
  intros request. split.
  - intros Hc. apply Admit_old_not_required. by apply isApprovalRequired_false.
  - intros Hopen Hne Hnone.
    assert (isApprovalRequired oldObj = true) as Hreq.
    { destruct (isApprovalRequired oldObj) eqn:E; [done |].
      by apply isApprovalRequired_false in E. }
    unfold request. rewrite Admit_open by done. simpl.
    destruct (ifUserExists _ _) eqn:E; [| done].
    apply ifUserExists_true in E as [? | (a & Hin & Ha)]; [done |].
    by destruct (Hnone a Hin).
Qed.

Lemma denial_messages_verbatim_witness :
  closed (task [user "alice" EmptyString] 1 "pending" 1)
  /\ Admit (update (task [user "alice" EmptyString] 1 "pending" 1)
                   (task [user "alice" "approve"] 1 "pending" 1)
                   (requester "alice" []))
     = Ret (deny "ApprovalTask has already reached it's final state")
  /\ ~ closed (pending [user "alice" EmptyString])
  /\ Admit (update (pending [user "alice" EmptyString]) (pending [user "alice" "approve"])
                   (requester "bob" []))
     = Ret (deny "User does not exist in the approval list").
Proof.
  assert (closed (task [user "alice" EmptyString] 1 "pending" 1)) as Hc
    by (right; right; reflexivity).
  assert (~ closed (pending [user "alice" EmptyString])) as Ho
    by (intros [H | [H | H]]; discriminate H).
  split; [exact Hc |]. split.
  - exact (proj1 (denial_messages_verbatim
                    (task [user "alice" EmptyString] 1 "pending" 1)
                    (RawTask (task [user "alice" "approve"] 1 "pending" 1))
                    (requester "alice" [])) Hc).
  - split; [exact Ho |].
    apply (proj2 (denial_messages_verbatim
                    (pending [user "alice" EmptyString])
                    (RawTask (pending [user "alice" "approve"]))
                    (requester "bob" [])) Ho); [done |].
    intros approval Hin.
    apply list_elem_of_singleton in Hin as ->.
    intros [[_ H] | [H _]]; discriminate H.
Defined.

(** C9, the claim as worded fails: scenario 5 and scenario 2 are denied,
    but not with the messages the claim spells out. *)
Lemma denial_messages_differ_from_claim :
  Admit (update (task [user "alice" EmptyString] 1 "pending" 1)
                (task [user "alice" "approve"] 1 "pending" 1)
                (requester "alice" []))
  <> Ret (deny "ApprovalTask has already reached its final state")
  /\ Admit (update (pending [user "alice" EmptyString]) (pending [user "alice" "approve"])
                   (requester "bob" []))
     <> Ret (deny "user does not exist in the approval list").
Proof. split; vm_compute; discriminate. Qed.

(** ** Lists of different lengths *)

(** C2, at the failing inputs.  The requester's own User entry sits at
    an index the new list does not have: the search for a change reads
    [newObjApprovers[i]] unguarded.  Another approver's User entry sits
    at such an index: the check of the other approvers reads
    [newObjApprover[i]] unguarded.  Both requests end in a run-time
    panic instead of a decision. *)
Theorem shorter_new_list_panics :
  Admit (update (pending [user "alice" EmptyString]) (pending [])
                (requester "alice" [])) = Panic
  /\ IsUserApprovalChanged [user "alice" EmptyString] [] 
       (update (pending [user "alice" EmptyString]) (pending []) (requester "alice" []))
     = Panic
  /\ Admit (update (pending [user "alice" EmptyString; user "bob" EmptyString])
                   (pending [user "alice" "approve"])
                   (requester "alice" [])) = Panic
  /\ CheckOtherUsersForInvalidChanges
       [user "alice" EmptyString; user "bob" EmptyString] [user "alice" "approve"]
       (update (pending [user "alice" EmptyString; user "bob" EmptyString])
               (pending [user "alice" "approve"]) (requester "alice" []))
     = Panic.
Proof. repeat split; vm_compute; reflexivity. Qed.

(** ** The search for a change, one index at a time *)

Lemma findUser_Some (currentUser : string) (users : list UD) (u : UD) :
  findUser currentUser users = Some u -> u ∈ users /\ UserDetails.Name u = currentUser.
Proof.
  unfold findUser. intros H. apply find_some in H as [Hin Heq].
  rewrite list_elem_of_In. by apply String.eqb_eq in Heq.
Qed.

Lemma findUser_existsb (currentUser : string) (users : list UD) :
  existsb (fun user => String.eqb (UserDetails.Name user) currentUser) users
  = match findUser currentUser users with Some _ => true | None => false end.
Proof.
  unfold findUser. induction users as [| u users IH]; [done |]. simpl.
  by destruct (String.eqb (UserDetails.Name u) currentUser).
Qed.

Lemma findUser_None (currentUser : string) (users : list UD) :
  findUser currentUser users = None
  <-> ~ exists u, u ∈ users /\ UserDetails.Name u = currentUser.
Proof.
  rewrite <- existsb_user_In, findUser_existsb.
  destruct (findUser currentUser users); split; done.
Qed.

Lemma isUserInGroup_true (approver : AD) (request : Request) :
  isUserInGroup approver request = true <-> belongsTo request approver.
Proof.
  unfold isUserInGroup, belongsTo, listsMember.
  by rewrite orb_true_iff, existsb_name_In, existsb_user_In.
Qed.

Lemma isUserInGroup_false (approver : AD) (request : Request) :
  isUserInGroup approver request = false <-> ~ belongsTo request approver.
Proof.
  rewrite <- isUserInGroup_true. by destruct (isUserInGroup approver request).
Qed.

Lemma validated_cases (v : string) :
  ((v = "approve" \/ v = "reject") /\ validated v = (true, None))
  \/ (v <> "approve" /\ v <> "reject"
      /\ validated v = (false, Some (invalidInputMessage v))).
Proof.
  unfold validated.
  destruct (hasValidInputValue_cases v) as [[Hv ->] | (Ha & Hr & ->)]; auto.
Qed.

(** What the guarded part of the loop body returns, in terms of the
    change sites. *)
Lemma groupChange_site (request : Request) (a n : AD) (v : string) :
  isGroupEntry a -> belongsTo request a ->
  ChangeSite request a n v ->
  groupChange a (Some n) (Username request) = Some (validated v).
Proof.
  intros Hg Hb Hsite. unfold groupChange. rewrite !findUser_existsb.
  destruct Hsite as [Hu _ _ _ | _ _ Hne | u _ _ Heq Ho Hn | o u _ _ Heq Ho Hn Hne].
  - unfold isUserEntry, isGroupEntry in *. congruence.
  - apply String.eqb_neq in Hne. by rewrite Hne.
  - rewrite Heq, String.eqb_refl. simpl. by rewrite Ho, Hn.
  - rewrite Heq, String.eqb_refl. simpl. rewrite Ho, Hn. simpl.
    apply String.eqb_neq in Hne. by rewrite Hne.
Qed.

Lemma groupChange_Some (request : Request) (a : AD) (newAt : option AD) (r : bool * error) :
  isGroupEntry a -> belongsTo request a ->
  groupChange a newAt (Username request) = Some r ->
  exists n v, newAt = Some n /\ ChangeSite request a n v /\ r = validated v.
Proof.
  intros Hg Hb. unfold groupChange.
  destruct newAt as [n |]; simpl; rewrite ?findUser_existsb.
  - destruct (String.eqb_spec (ApproverDetails.Input a) (ApproverDetails.Input n))
      as [Heq | Hne]; simpl.
    + destruct (findUser (Username request) (ApproverDetails.Users a)) as [o |] eqn:Ho;
        destruct (findUser (Username request) (ApproverDetails.Users n)) as [u |] eqn:Hn;
        simpl; try done.
      * destruct (String.eqb_spec (UserDetails.Input o) (UserDetails.Input u))
          as [? | Hne]; simpl; [done |].
        intros [= <-]. exists n, (UserDetails.Input u).
        split; [done |]. split; [| done]. by eapply MemberInput.
      * intros [= <-]. exists n, (UserDetails.Input u).
        split; [done |]. split; [| done]. by eapply MemberAdded.
    + intros [= <-]. exists n, (ApproverDetails.Input n).
      split; [done |]. split; [| done]. by apply GroupInput.
  - by destruct (findUser (Username request) (ApproverDetails.Users a)).
Qed.

Lemma groupChange_None (request : Request) (a : AD) (newAt : option AD) :
  isGroupEntry a -> belongsTo request a ->
  groupChange a newAt (Username request) = None
  <-> ~ exists n v, newAt = Some n /\ ChangeSite request a n v.
Proof.
  intros Hg Hb. split.
  - intros Hnone (n & v & -> & Hsite).
    by rewrite (groupChange_site request a n v) in Hnone.
  - intros Hno. destruct (groupChange a newAt (Username request)) as [r |] eqn:E; [| done].
    destruct (groupChange_Some request a newAt r Hg Hb E) as (n & v & ? & ? & _).
    destruct Hno. eauto.
Qed.

Lemma changeAt_user (request : Request) (a : AD) (newAt : option AD) :
  isUserEntry a -> ApproverDetails.Name a = Username request ->
  changeAt a newAt request
  = Some (match newAt with
          | Some n => Ret (hasOnlyInputChanged a n)
          | None => Panic
          end).
Proof.
  intros Hu Hn. unfold changeAt. unfold isUserEntry in Hu.
  rewrite Hu, Hn, !String.eqb_refl. simpl. by destruct newAt.
Qed.

Lemma changeAt_group (request : Request) (a : AD) (newAt : option AD) :
  isGroupEntry a -> belongsTo request a ->
  changeAt a newAt request = Ret <$> groupChange a newAt (Username request).
Proof.
  intros Hg Hb. unfold changeAt. unfold isGroupEntry in Hg. rewrite Hg.
  replace (String.eqb "Group" "User") with false by reflexivity.
  rewrite andb_false_r. simpl.
  apply isUserInGroup_true in Hb. by rewrite Hb.
Qed.

Lemma changeAt_stranger (request : Request) (a : AD) (newAt : option AD) :
  ~ matchesRequester request a -> changeAt a newAt request = None.
Proof.
  intros Hno. unfold changeAt.
  destruct (String.eqb_spec (ApproverDetails.Name a) (Username request)) as [Hn | Hn];
    destruct (String.eqb_spec (DefaultedApproverType (ApproverDetails.Type' a)) "User")
      as [Hu | Hu]; simpl.
  - destruct Hno. by left.
  - destruct (String.eqb_spec (DefaultedApproverType (ApproverDetails.Type' a)) "Group")
      as [Hg | Hg]; [| done].
    destruct (isUserInGroup a request) eqn:E; [| done].
    apply isUserInGroup_true in E. destruct Hno. by right.
  - rewrite Hu. done.
  - destruct (String.eqb_spec (DefaultedApproverType (ApproverDetails.Type' a)) "Group")
      as [Hg | Hg]; [| done].
    destruct (isUserInGroup a request) eqn:E; [| done].
    apply isUserInGroup_true in E. destruct Hno. by right.
Qed.

Lemma changeAt_Some_matches (request : Request) (a : AD) (newAt : option AD)
    (r : outcome (bool * error)) :
  changeAt a newAt request = Some r -> matchesRequester request a.
Proof.
  unfold changeAt, matchesRequester, isUserEntry, isGroupEntry.
  destruct (String.eqb_spec (ApproverDetails.Name a) (Username request)) as [Hn | Hn];
    destruct (String.eqb_spec (DefaultedApproverType (ApproverDetails.Type' a)) "User")
      as [Hu | Hu]; simpl; try (by left);
    destruct (String.eqb_spec (DefaultedApproverType (ApproverDetails.Type' a)) "Group")
      as [Hg | Hg]; try done;
    destruct (isUserInGroup a request) eqn:E; try done;
    apply isUserInGroup_true in E; by right.
Qed.

Lemma site_matches (request : Request) (a n : AD) (v : string) :
  ChangeSite request a n v -> matchesRequester request a.
Proof. intros [| | |]; [by left | by right ..]. Qed.

Lemma hasOnlyInputChanged_changed (a n : AD) :
  ApproverDetails.Name n = ApproverDetails.Name a ->
  ApproverDetails.Input a <> ApproverDetails.Input n ->
  hasOnlyInputChanged a n = validated (ApproverDetails.Input n).
Proof.
  intros Hn Hi. unfold hasOnlyInputChanged.
  apply String.eqb_neq in Hi. by rewrite Hn, String.eqb_refl, Hi.
Qed.

Lemma hasOnlyInputChanged_unchanged (a n : AD) :
  ApproverDetails.Name n <> ApproverDetails.Name a
  \/ ApproverDetails.Input a = ApproverDetails.Input n ->
  hasOnlyInputChanged a n = (false, None).
Proof.
  unfold hasOnlyInputChanged. intros [Hn | Hi].
  - assert (ApproverDetails.Name a <> ApproverDetails.Name n) as Hn' by congruence.
    apply String.eqb_neq in Hn'. by rewrite Hn'.
  - by rewrite Hi, String.eqb_refl, andb_false_r.
Qed.

Lemma site_changeAt (request : Request) (a n : AD) (v : string) :
  ChangeSite request a n v ->
  changeAt a (Some n) request = Some (Ret (validated v)).
Proof.
  intros Hsite. destruct Hsite as [Hu Hn Hnn Hi | Hg Hb Hi | u Hg Hb Hi Ho Hf | o u Hg Hb Hi Ho Hf Hne] eqn:E.
  - rewrite changeAt_user by done. by rewrite hasOnlyInputChanged_changed.
  - rewrite changeAt_group by done. by rewrite (groupChange_site request a n _ Hg Hb Hsite).
  - rewrite changeAt_group by done. by rewrite (groupChange_site request a n _ Hg Hb Hsite).
  - rewrite changeAt_group by done. by rewrite (groupChange_site request a n _ Hg Hb Hsite).
Qed.

(** A returned result other than "no change" comes from a change site. *)
Lemma changeAt_found (request : Request) (a : AD) (newAt : option AD) (r : bool * error) :
  changeAt a newAt request = Some (Ret r) ->
  r <> (false, None) ->
  exists n v, newAt = Some n /\ ChangeSite request a n v /\ r = validated v.
Proof.
  intros H Hr. pose proof (changeAt_Some_matches _ _ _ _ H) as [[Hu Hn] | [Hg Hb]].
  - rewrite changeAt_user in H by done.
    destruct newAt as [n |]; [| done]. injection H as H.
    exists n, (ApproverDetails.Input n). split; [done |].
    destruct (decide (ApproverDetails.Name n = ApproverDetails.Name a)) as [Hnn | Hnn];
      [| by rewrite hasOnlyInputChanged_unchanged in H; auto].
    destruct (decide (ApproverDetails.Input a = ApproverDetails.Input n)) as [Hi | Hi];
      [by rewrite hasOnlyInputChanged_unchanged in H; auto |].
    rewrite hasOnlyInputChanged_changed in H by done.
    split; [by apply UserInput | done].
  - rewrite changeAt_group in H by done.
    destruct (groupChange a newAt (Username request)) as [r' |] eqn:E; [| done].
    injection H as ->. by apply groupChange_Some.
Qed.

(** ** The search for a change, over the list *)

Lemma IsUserApprovalChanged_from_stop (request : Request) (news olds : list AD)
    (i k : nat) (a : AD) (r : outcome (bool * error)) :
  olds !! k = Some a ->
  (forall j a', j < k -> olds !! j = Some a' -> changeAt a' (news !! (i + j)) request = None) ->
  changeAt a (news !! (i + k)) request = Some r ->
  IsUserApprovalChanged_from i olds news request = r.
Proof.
  revert i k. induction olds as [| a0 olds IH]; intros i k Hk Hpass Hstop; [done |].
  destruct k as [| k]; simpl in *.
  - injection Hk as ->. rewrite Nat.add_0_r in Hstop. by rewrite Hstop.
  - pose proof (Hpass 0 a0 ltac:(lia) eq_refl) as H0.
    rewrite Nat.add_0_r in H0. rewrite H0.
    apply (IH (S i) k); [done | |].
    + intros j a' Hj Hl. replace (S i + j) with (i + S j) by lia.
      apply Hpass; [lia | done].
    + by replace (S i + k) with (i + S k) by lia.
Qed.

Lemma IsUserApprovalChanged_from_inv (request : Request) (news olds : list AD) (i : nat) :
  (IsUserApprovalChanged_from i olds news request = Ret (false, None)
   /\ forall j a', olds !! j = Some a' -> changeAt a' (news !! (i + j)) request = None)
  \/ exists k a r,
       olds !! k = Some a
       /\ (forall j a', j < k -> olds !! j = Some a' ->
                        changeAt a' (news !! (i + j)) request = None)
       /\ changeAt a (news !! (i + k)) request = Some r
       /\ IsUserApprovalChanged_from i olds news request = r.
Proof.
  revert i. induction olds as [| a0 olds IH]; intros i; [by left |].
  simpl. destruct (changeAt a0 (news !! i) request) as [r |] eqn:E.
  - right. exists 0, a0, r. rewrite Nat.add_0_r. repeat split; [| done..].
    intros j a' Hj. lia.
  - destruct (IH (S i)) as [[Hres Hall] | (k & a & r & Hk & Hpass & Hstop & Hres)].
    + left. split; [done |]. intros [| j] a' Hl; simpl in Hl.
      * injection Hl as <-. by rewrite Nat.add_0_r.
      * replace (i + S j) with (S i + j) by lia. by apply Hall.
    + right. exists (S k), a, r. repeat split; [done | | | done].
      * intros [| j] a' Hj Hl; simpl in Hl.
        -- injection Hl as <-. by rewrite Nat.add_0_r.
        -- replace (i + S j) with (S i + j) by lia. apply Hpass; [lia | done].
      * by replace (i + S k) with (S i + k) by lia.
Qed.

(** The search returns what the loop body returns at the first index
    it does not go past. *)
Lemma locator_stops (request : Request) (olds news : list AD) (k : nat) (a : AD)
    (r : outcome (bool * error)) :
  passesOver request olds news k ->
  olds !! k = Some a ->
  changeAt a (news !! k) request = Some r ->
  IsUserApprovalChanged olds news request = r.
Proof.
  intros Hpass Hk Hstop. by apply (IsUserApprovalChanged_from_stop request news olds 0 k a).
Qed.

Lemma locator_inv (request : Request) (olds news : list AD) :
  (IsUserApprovalChanged olds news request = Ret (false, None)
   /\ forall j a, olds !! j = Some a -> changeAt a (news !! j) request = None)
  \/ exists k a r,
       olds !! k = Some a
       /\ passesOver request olds news k
       /\ changeAt a (news !! k) request = Some r
       /\ IsUserApprovalChanged olds news request = r.
Proof.
  destruct (IsUserApprovalChanged_from_inv request news olds 0)
    as [? | (k & a & r & ? & ? & ? & ?)]; [by left |].
  right. by exists k, a, r.
Qed.

(** A found change or a validation error comes from a change site of
    the requester at the index where the search stops. *)
Lemma locator_found (request : Request) (olds news : list AD) (r : bool * error) :
  IsUserApprovalChanged olds news request = Ret r ->
  r <> (false, None) ->
  exists k a n v,
    olds !! k = Some a /\ news !! k = Some n
    /\ passesOver request olds news k
    /\ ChangeSite request a n v
    /\ r = validated v.
Proof.
  intros Hres Hr.
  destruct (locator_inv request olds news) as [[Hn _] | (k & a & r' & Hk & Hpass & Hstop & Hr')].
  - congruence.
  - rewrite Hres in Hr'. subst r'.
    destruct (changeAt_found request a (news !! k) r Hstop Hr) as (n & v & Hn & Hsite & ->).
    by exists k, a, n, v.
Qed.

Lemma site_eligible (request : Request) (olds : list AD) (k : nat) (a n : AD) (v : string) :
  olds !! k = Some a -> ChangeSite request a n v -> ifUserExists olds request = true.
Proof.
  intros Hk Hsite. apply ifUserExists_true. right. exists a. split.
  - by eapply list_elem_of_lookup_2.
  - by eapply site_matches.
Qed.

Lemma decideChange_error (oldObj newObj : ApprovalTask.t) (request : Request)
    (b : bool) (err : string) :
  IsUserApprovalChanged (approversOf oldObj) (approversOf newObj) request = Ret (b, Some err) ->
  decideChange oldObj newObj request = Ret (deny (String.append invalidChangePrefix err)).
Proof. intros H. unfold decideChange. rewrite H. by destruct b. Qed.

Lemma decideChange_allow (oldObj newObj : ApprovalTask.t) (request : Request) :
  decideChange oldObj newObj request = Ret allow
  <-> IsUserApprovalChanged (approversOf oldObj) (approversOf newObj) request = Ret (true, None)
      /\ CheckOtherUsersForInvalidChanges (approversOf oldObj) (approversOf newObj) request
         = Ret true.
Proof.
  unfold decideChange.
  destruct (IsUserApprovalChanged _ _ _) as [[[|] [e |]] |];
    try (split; [done | by intros [? _]]).
  destruct (CheckOtherUsersForInvalidChanges _ _ _) as [[|] |];
    split; try done; by intros [_ ?].
Qed.

Lemma Admit_update_allow (oldObj newObj : ApprovalTask.t) (who : UserInfo.t) :
  Admit (update oldObj newObj who) = Ret allow ->
  isApprovalRequired oldObj = true
  /\ ifUserExists (approversOf oldObj) (update oldObj newObj who) = true
  /\ decideChange oldObj newObj (update oldObj newObj who) = Ret allow.
Proof.
  unfold update. destruct (isApprovalRequired oldObj) eqn:Hopen.
  - rewrite Admit_open by done. simpl.
    by destruct (ifUserExists _ _).
  - by rewrite Admit_old_not_required.
Qed.

Lemma Admit_update_eligible (oldObj newObj : ApprovalTask.t) (who : UserInfo.t) :
  isApprovalRequired oldObj = true ->
  ifUserExists (approversOf oldObj) (update oldObj newObj who) = true ->
  Admit (update oldObj newObj who) = decideChange oldObj newObj (update oldObj newObj who).
Proof.
  intros Hopen Hel. unfold update in *. rewrite Admit_open by done. simpl. by rewrite Hel.
Qed.

Lemma site_located (request : Request) (olds news : list AD) (k : nat) (a n : AD)
    (v : string) :
  olds !! k = Some a -> news !! k = Some n ->
  passesOver request olds news k ->
  ChangeSite request a n v ->
  IsUserApprovalChanged olds news request = Ret (validated v).
Proof.
  intros Hk Hn Hpass Hsite. apply (locator_stops request olds news k a); [done..|].
  rewrite Hn. by apply site_changeAt.
Qed.

(** ** The value of a located change *)

(** C5. The check of a value accepts exactly "approve" and "reject".
    Where the search for a change stops at a change site of the
    requester, it reports a change when the new value there is one of
    the two and a validation error otherwise; on an open task the
    error is the denial, with the message that names the value; and a
    request that is allowed has one of the two values at the site. *)
Theorem located_change_value_domain (oldObj newObj : ApprovalTask.t) (who : UserInfo.t)
    (i : nat) (a n : AD) (v : string) :
  let request := update oldObj newObj who in
  let olds := approversOf oldObj in
  let news := approversOf newObj in
  isApprovalRequired oldObj = true ->
  olds !! i = Some a ->
  news !! i = Some n ->
  passesOver request olds news i ->
  ChangeSite request a n v ->
  (forall input, hasValidInputValue input = None <-> input = "approve" \/ input = "reject")
  /\ (v = "approve" \/ v = "reject" ->
      IsUserApprovalChanged olds news request = Ret (true, None))
  /\ (v <> "approve" -> v <> "reject" ->
      IsUserApprovalChanged olds news request
      = Ret (false,
             Some (String.append "invalid input value: '"
                     (String.append v "'. Supported values are 'approve' or 'reject'")))
      /\ Admit request
         = Ret (deny (String.append "Invalid input change: invalid input value: '"
                        (String.append v "'. Supported values are 'approve' or 'reject'"))))
  /\ (Admit request = Ret allow -> v = "approve" \/ v = "reject").
Proof.
  intros request olds news Hopen Hi Hn Hpass Hsite.
  pose proof (site_located request olds news i a n v Hi Hn Hpass Hsite) as Hloc.
  split; [apply hasValidInputValue_nil |].
  destruct (validated_cases v) as [[Hv Hval] | (Ha & Hr & Hval)]; rewrite Hval in Hloc.
  - split; [done |]. split; [| done].
    intros Ha Hr. by destruct Hv.
  - split; [by intros [? | ?] |]. split.
    + intros _ _. split; [done |].
      unfold request. rewrite Admit_update_eligible; [| done |].
      * apply (decideChange_error oldObj newObj _ false). exact Hloc.
      * by eapply site_eligible.
    + intros Hallow. apply Admit_update_allow in Hallow as (_ & _ & Hdec).
      apply decideChange_allow in Hdec as [Hfound _].
      fold olds news request in Hfound. congruence.
Qed.

Lemma located_change_value_domain_witness :
  Admit (update (pending [user "alice" EmptyString]) (pending [user "alice" "Approve"])
                (requester "alice" []))
  = Ret (deny "Invalid input change: invalid input value: 'Approve'. Supported values are 'approve' or 'reject'").
Proof.
  assert (ChangeSite (update (pending [user "alice" EmptyString])
                             (pending [user "alice" "Approve"]) (requester "alice" []))
                     (user "alice" EmptyString) (user "alice" "Approve") "Approve") as Hsite.
  { apply (UserInput _ (user "alice" EmptyString) (user "alice" "Approve"));
      [reflexivity | reflexivity | reflexivity | discriminate]. }
  assert (passesOver (update (pending [user "alice" EmptyString])
                             (pending [user "alice" "Approve"]) (requester "alice" []))
                     [user "alice" EmptyString] [user "alice" "Approve"] 0) as Hpass.
  { intros j a' Hj. lia. }
  pose proof (located_change_value_domain
                (pending [user "alice" EmptyString]) (pending [user "alice" "Approve"])
                (requester "alice" []) 0
                (user "alice" EmptyString) (user "alice" "Approve") "Approve"
                eq_refl eq_refl eq_refl Hpass Hsite) as (_ & _ & H & _).
  apply H; discriminate.
Defined.

(** The other two values the claim names. *)
Example empty_value_refused :
  Admit (update (pending [user "alice" "approve"]) (pending [user "alice" EmptyString])
                (requester "alice" []))
  = Ret (deny "Invalid input change: invalid input value: ''. Supported values are 'approve' or 'reject'").
Proof. vm_compute. reflexivity. Qed.

Example member_value_refused :
  Admit (update (pending [group "qa" EmptyString [member "carol" EmptyString]])
                (pending [group "qa" EmptyString [member "carol" "maybe"]])
                (requester "carol" []))
  = Ret (deny "Invalid input change: invalid input value: 'maybe'. Supported values are 'approve' or 'reject'").
Proof. vm_compute. reflexivity. Qed.

(** ** The requester's own User entry *)

(** C7 (as amended). Where the search for a change reaches a User
    entry of the requester's name, at an index the new list has too,
    its result is that of [hasOnlyInputChanged] on the two entries: a
    change exists exactly when the new entry has the same name and a
    different input; the new value is then validated, a valid one is
    the located change and an invalid one the validation error;
    without such a change the search ends with "no change". *)
Theorem own_user_entry_change (request : Request) (olds news : list AD) (i : nat)
    (a n : AD) :
  passesOver request olds news i ->
  olds !! i = Some a ->
  isUserEntry a ->
  ApproverDetails.Name a = Username request ->
  news !! i = Some n ->
  IsUserApprovalChanged olds news request = Ret (hasOnlyInputChanged a n)
  /\ (IsUserApprovalChanged olds news request <> Ret (false, None)
      <-> ApproverDetails.Name n = ApproverDetails.Name a
          /\ ApproverDetails.Input a <> ApproverDetails.Input n)
  /\ (IsUserApprovalChanged olds news request = Ret (true, None)
      <-> ApproverDetails.Name n = ApproverDetails.Name a
          /\ ApproverDetails.Input a <> ApproverDetails.Input n
          /\ (ApproverDetails.Input n = "approve" \/ ApproverDetails.Input n = "reject"))
  /\ (ApproverDetails.Name n = ApproverDetails.Name a ->
      ApproverDetails.Input a <> ApproverDetails.Input n ->
      ApproverDetails.Input n <> "approve" -> ApproverDetails.Input n <> "reject" ->
      IsUserApprovalChanged olds news request
      = Ret (false, Some (invalidInputMessage (ApproverDetails.Input n)))).
Proof.
  intros Hpass Hi Hu Hname Hn.
  assert (IsUserApprovalChanged olds news request = Ret (hasOnlyInputChanged a n)) as Hloc.
  { apply (locator_stops request olds news i a); [done..|].
    rewrite Hn. by apply changeAt_user. }
  split; [done |]. rewrite Hloc.
  destruct (decide (ApproverDetails.Name n = ApproverDetails.Name a)) as [Hnn | Hnn];
    [| rewrite hasOnlyInputChanged_unchanged by auto; naive_solver].
  destruct (decide (ApproverDetails.Input a = ApproverDetails.Input n)) as [Hin | Hin];
    [rewrite hasOnlyInputChanged_unchanged by auto; naive_solver |].
  rewrite hasOnlyInputChanged_changed by done.
  destruct (validated_cases (ApproverDetails.Input n)) as [[Hv ->] | (Ha & Hr & ->)];
    naive_solver.
Qed.

Lemma own_user_entry_change_witness :
  IsUserApprovalChanged [user "bob" EmptyString; user "alice" EmptyString]
                        [user "bob" EmptyString; user "alice" "reject"]
      (update (pending [user "bob" EmptyString; user "alice" EmptyString])
              (pending [user "bob" EmptyString; user "alice" "reject"])
              (requester "alice" []))
  = Ret (true, None).
Proof.
  assert (passesOver
            (update (pending [user "bob" EmptyString; user "alice" EmptyString])
                    (pending [user "bob" EmptyString; user "alice" "reject"])
                    (requester "alice" []))
            [user "bob" EmptyString; user "alice" EmptyString]
            [user "bob" EmptyString; user "alice" "reject"] 1) as Hpass.
  { intros j a' Hj Hl. destruct j as [| j]; [| lia].
    injection Hl as <-. reflexivity. }
  exact (proj1 (own_user_entry_change _ _ _ 1 (user "alice" EmptyString)
                  (user "alice" "reject") Hpass eq_refl eq_refl eq_refl eq_refl)).
Defined.

(** C7, the claim as worded fails.  The requester's User entry at index
    0 has a different, valid input in the new list, but the new entry
    bears another name: no change is located and the request is
    denied.  And with two User entries of the requester's name a
    difference at the second one is not located either. *)
Lemma own_user_entry_name_matters :
  let request := update (pending [user "alice" EmptyString]) (pending [user "bob" "approve"])
                        (requester "alice" []) in
  let twice := update (pending [user "alice" EmptyString; user "alice" EmptyString])
                      (pending [user "alice" EmptyString; user "alice" "approve"])
                      (requester "alice" []) in
  (isUserEntry (user "alice" EmptyString)
   /\ ApproverDetails.Name (user "alice" EmptyString) = Username request
   /\ ApproverDetails.Input (user "alice" EmptyString)
      <> ApproverDetails.Input (user "bob" "approve")
   /\ hasValidInputValue (ApproverDetails.Input (user "bob" "approve")) = None
   /\ IsUserApprovalChanged [user "alice" EmptyString] [user "bob" "approve"] request
      = Ret (false, None)
   /\ Admit request = Ret (deny ownInputOnlyMessage))
  /\ (IsUserApprovalChanged [user "alice" EmptyString; user "alice" EmptyString]
                            [user "alice" EmptyString; user "alice" "approve"] twice
      = Ret (false, None)
      /\ Admit twice = Ret (deny ownInputOnlyMessage)).
Proof. repeat split; try (vm_compute; reflexivity). discriminate. Qed.

(** ** Where the search stops *)

Lemma passesOver_S (request : Request) (olds news : list AD) (k : nat) (a : AD) :
  passesOver request olds news k ->
  olds !! k = Some a ->
  changeAt a (news !! k) request = None ->
  passesOver request olds news (S k).
Proof.
  intros Hpass Hk Hnone j a' Hj Hl.
  destruct (decide (j = k)) as [-> | Hne].
  - congruence.
  - apply Hpass; [lia | done].
Qed.

Lemma passesOver_agree (request : Request) (olds news olds' news' : list AD) (k : nat) :
  take (S k) olds' = take (S k) olds ->
  take (S k) news' = take (S k) news ->
  passesOver request olds news k ->
  passesOver request olds' news' k.
Proof.
  intros Ho Hn Hpass j a' Hj Hl.
  rewrite <- (lookup_take_lt news' (S k) j), Hn, lookup_take_lt by lia.
  apply Hpass; [done |].
  by rewrite <- (lookup_take_lt olds (S k) j), <- Ho, lookup_take_lt by lia.
Qed.

(** C8 (as amended). At the first index the search does not go past:
    a User entry of the requester's name always ends the search, with
    the result of comparing the two entries at that index; an entry
    with a change site of the requester ends it with the validation of
    the new value.  A Group entry the requester belongs to that shows
    no change of theirs does not end the search, nor does an entry
    that does not match the requester: the search goes on with the
    next index.  Where the search ends, its result depends on the two
    lists up to that index only, so no later entry is inspected and
    one result is returned. *)
Theorem scan_stops_at_first_change (request : Request) (olds news : list AD) (k : nat)
    (a : AD) :
  olds !! k = Some a ->
  passesOver request olds news k ->
  (isUserEntry a -> ApproverDetails.Name a = Username request ->
   IsUserApprovalChanged olds news request
   = match news !! k with
     | Some n => Ret (hasOnlyInputChanged a n)
     | None => Panic
     end)
  /\ (forall n v, news !! k = Some n -> ChangeSite request a n v ->
        IsUserApprovalChanged olds news request = Ret (validated v))
  /\ (isGroupEntry a -> belongsTo request a ->
      (~ exists n v, news !! k = Some n /\ ChangeSite request a n v) ->
      passesOver request olds news (S k))
  /\ (~ matchesRequester request a -> passesOver request olds news (S k))
  /\ (forall r olds' news',
        changeAt a (news !! k) request = Some r ->
        take (S k) olds' = take (S k) olds ->
        take (S k) news' = take (S k) news ->
        IsUserApprovalChanged olds news request = r
        /\ IsUserApprovalChanged olds' news' request = r).
Proof.
  intros Hk Hpass. split; [| split; [| split; [| split]]].
  - intros Hu Hn. apply (locator_stops request olds news k a); [done..|].
    by apply changeAt_user.
  - intros n v Hn Hsite. by apply (site_located request olds news k a n).
  - intros Hg Hb Hno. apply (passesOver_S request olds news k a); [done..|].
    rewrite changeAt_group by done.
    by apply (groupChange_None request a (news !! k) Hg Hb) in Hno as ->.
  - intros Hno. apply (passesOver_S request olds news k a); [done..|].
    by apply changeAt_stranger.
  - intros r olds' news' Hstop Ho Hn. split.
    + by apply (locator_stops request olds news k a).
    + apply (locator_stops request olds' news' k a).
      * by apply (passesOver_agree request olds news).
      * by rewrite <- (lookup_take_lt olds' (S k) k), Ho, lookup_take_lt by lia.
      * by rewrite <- (lookup_take_lt news' (S k) k), Hn, lookup_take_lt by lia.
Qed.

Lemma scan_stops_at_first_change_witness :
  IsUserApprovalChanged
    [user "alice" EmptyString; group "qa" EmptyString []]
    [user "alice" "approve"; group "qa" "reject" []]
    (update (pending [user "alice" EmptyString; group "qa" EmptyString []])
            (pending [user "alice" "approve"; group "qa" "reject" []])
            (requester "alice" ["qa"]))
  = Ret (true, None).
Proof.
  assert (passesOver
            (update (pending [user "alice" EmptyString; group "qa" EmptyString []])
                    (pending [user "alice" "approve"; group "qa" "reject" []])
                    (requester "alice" ["qa"]))
            [user "alice" EmptyString; group "qa" EmptyString []]
            [user "alice" "approve"; group "qa" "reject" []] 0) as Hpass.
  { intros j a' Hj. lia. }
  exact (proj1 (scan_stops_at_first_change _
                  [user "alice" EmptyString; group "qa" EmptyString []]
                  [user "alice" "approve"; group "qa" "reject" []]
                  0 (user "alice" EmptyString) eq_refl Hpass) eq_refl eq_refl).
Defined.

(** C8, the claim as worded fails.  The first entry that matches the
    requester is the group "qa" at index 0, and it is the same in both
    updates; the search goes on to the requester's User entry at index
    1 all the same, and its result follows that later entry. *)
Lemma scan_goes_past_unchanged_group :
  let olds := [group "qa" EmptyString []; user "alice" EmptyString] in
  let news1 := [group "qa" EmptyString []; user "alice" "approve"] in
  let news2 := [group "qa" EmptyString []; user "alice" EmptyString] in
  let request1 := update (pending olds) (pending news1) (requester "alice" ["qa"]) in
  let request2 := update (pending olds) (pending news2) (requester "alice" ["qa"]) in
  matchesRequester request1 (group "qa" EmptyString [])
  /\ news1 !! 0 = news2 !! 0
  /\ IsUserApprovalChanged olds news1 request1 = Ret (true, None)
  /\ IsUserApprovalChanged olds news2 request2 = Ret (false, None)
  /\ Admit request1 = Ret allow
  /\ Admit request2 = Ret (deny ownInputOnlyMessage).
Proof.
  repeat split; try (vm_compute; reflexivity).
  right. split; [reflexivity |]. left. apply list_elem_of_singleton. reflexivity.
Qed.

(** ** The check of the other approvers, one index at a time *)

Lemma usersMap_lookup (users : list UD) (name : string) :
  usersMap users !! name = recordedInput users name.
Proof.
  unfold usersMap, recordedInput, findUser.
  induction users as [| u users IH] using rev_ind; [done |].
  rewrite foldl_snoc, reverse_snoc. simpl.
  destruct (String.eqb_spec (UserDetails.Name u) name) as [-> | Hne].
  - by rewrite lookup_insert_eq.
  - by rewrite lookup_insert_ne.
Qed.

Lemma forallb_map_to_list (m : gmap string string) (f : string * string -> bool) :
  forallb f (map_to_list m) = true <-> forall k v, m !! k = Some v -> f (k, v) = true.
Proof.
  rewrite forallb_forall. split.
  - intros H k v Hl. apply H. by apply list_elem_of_In, elem_of_map_to_list.
  - intros H [k v] Hin. apply H. by apply elem_of_map_to_list, list_elem_of_In.
Qed.

Lemma groupUntouched_true (a : AD) (newAt : option AD) (request : Request) :
  groupUntouched a newAt request = true
  <-> (~ belongsTo request a ->
       forall n, newAt = Some n -> ApproverDetails.Input a = ApproverDetails.Input n)
      /\ (forall name oldInput newInput,
            name <> Username request ->
            recordedInput (ApproverDetails.Users a) name = Some oldInput ->
            recordedInput (newUsersAt newAt) name = Some newInput ->
            oldInput = newInput)
      /\ (forall name newInput,
            recordedInput (newUsersAt newAt) name = Some newInput ->
            recordedInput (ApproverDetails.Users a) name = None ->
            name = Username request /\ belongsTo request a).
Proof.
  unfold groupUntouched.
  assert (match newAt with
          | Some n => usersMap (ApproverDetails.Users n)
          | None => ∅
          end = usersMap (newUsersAt newAt)) as -> by (by destruct newAt).
  destruct (isUserInGroup a request) eqn:Hin; simpl.
  - apply isUserInGroup_true in Hin.
    rewrite andb_true_iff, !forallb_map_to_list.
    setoid_rewrite usersMap_lookup. split.
    + intros [Hold Hnew]. split; [done |]. split.
      * intros name oi ni Hne Ho Hn. specialize (Hold name oi Ho). simpl in Hold.
        apply String.eqb_neq in Hne. rewrite Hne, Hn in Hold. simpl in Hold.
        by apply String.eqb_eq in Hold.
      * intros name ni Hn Ho. specialize (Hnew name ni Hn). simpl in Hnew.
        rewrite Ho, andb_true_r in Hnew. by apply String.eqb_eq in Hnew.
    + intros (_ & Hold & Hnew). split.
      * intros name oi Ho. simpl.
        destruct (String.eqb_spec name (Username request)) as [? | Hne]; [done |]. simpl.
        destruct (recordedInput (newUsersAt newAt) name) as [ni |] eqn:Hn; [| done].
        apply String.eqb_eq. by apply (Hold name).
      * intros name ni Hn. simpl.
        destruct (recordedInput (ApproverDetails.Users a) name) eqn:Ho; [done |].
        destruct (Hnew name ni Hn Ho) as [-> _]. by rewrite String.eqb_refl.
  - apply isUserInGroup_false in Hin.
    destruct (match newAt with
              | Some n => negb (String.eqb (ApproverDetails.Input a) (ApproverDetails.Input n))
              | None => false
              end) eqn:Hinput.
    + split; [done |]. intros [Hgroup _]. destruct newAt as [n |]; [| done].
      rewrite (Hgroup Hin n eq_refl), String.eqb_refl in Hinput. done.
    + rewrite andb_true_iff, !forallb_map_to_list.
      setoid_rewrite usersMap_lookup. split.
      * intros [Hold Hnew]. split; [| split].
        -- intros _ n ->. apply negb_false_iff in Hinput. by apply String.eqb_eq.
        -- intros name oi ni Hne Ho Hn. specialize (Hold name oi Ho). simpl in Hold.
           apply String.eqb_neq in Hne. rewrite Hne, Hn in Hold. simpl in Hold.
           by apply String.eqb_eq in Hold.
        -- intros name ni Hn Ho. specialize (Hnew name ni Hn). simpl in Hnew.
           rewrite Ho, andb_false_r in Hnew. done.
      * intros (_ & Hold & Hnew). split.
        -- intros name oi Ho. simpl.
           destruct (String.eqb_spec name (Username request)) as [? | Hne]; [done |]. simpl.
           destruct (recordedInput (newUsersAt newAt) name) as [ni |] eqn:Hn; [| done].
           apply String.eqb_eq. by apply (Hold name).
        -- intros name ni Hn. simpl.
           destruct (recordedInput (ApproverDetails.Users a) name) eqn:Ho; [done |].
           by destruct (Hnew name ni Hn Ho) as [_ ?].
Qed.

Lemma user_not_group (a : AD) : isUserEntry a -> isGroupEntry a -> False.
Proof. unfold isUserEntry, isGroupEntry. congruence. Qed.

Lemma checkAt_None (a : AD) (newAt : option AD) (request : Request) :
  checkAt a newAt request = None
  <-> (isUserEntry a -> ApproverDetails.Name a <> Username request ->
       exists n, newAt = Some n /\ ApproverDetails.Input a = ApproverDetails.Input n)
      /\ (isGroupEntry a -> groupUntouched a newAt request = true).
Proof.
  unfold checkAt, isUserEntry, isGroupEntry.
  destruct (String.eqb_spec (DefaultedApproverType (ApproverDetails.Type' a)) "User")
    as [Hu | Hu]; simpl.
  - rewrite Hu. replace (String.eqb "User" "Group") with false by reflexivity.
    destruct (String.eqb_spec (ApproverDetails.Name a) (Username request)) as [Hn | Hn]; simpl.
    + split; [| done]. intros _. split; [done |]. discriminate.
    + destruct newAt as [n |].
      * destruct (String.eqb_spec (ApproverDetails.Input a) (ApproverDetails.Input n))
          as [Hi | Hi]; simpl.
        -- split; [| done]. intros _. split; [by exists n |]. discriminate.
        -- split; [done |]. intros [H _]. destruct (H eq_refl Hn) as (n' & [= <-] & ?). done.
      * split; [done |]. intros [H _]. by destruct (H eq_refl Hn) as (n' & ? & ?).
  - destruct (String.eqb_spec (DefaultedApproverType (ApproverDetails.Type' a)) "Group")
      as [Hg | Hg].
    + destruct (groupUntouched a newAt request).
      * split; [| done]. intros _. split; done.
      * split; [done |]. intros [_ H]. by specialize (H Hg).
    + split; [| done]. intros _. split; done.
Qed.

Lemma checkAt_addressable (a n : AD) (request : Request) :
  checkAt a (Some n) request = None \/ checkAt a (Some n) request = Some (Ret false).
Proof.
  unfold checkAt.
  destruct (String.eqb (DefaultedApproverType (ApproverDetails.Type' a)) "User"
            && negb (String.eqb (ApproverDetails.Name a) (Username request)));
    [destruct (negb (String.eqb (ApproverDetails.Input a) (ApproverDetails.Input n)));
       [by right |] |];
    (destruct (String.eqb (DefaultedApproverType (ApproverDetails.Type' a)) "Group");
       [destruct (groupUntouched a (Some n) request); auto | auto]).
Qed.

Lemma checkAt_not_true (a : AD) (newAt : option AD) (request : Request) :
  checkAt a newAt request <> Some (Ret true).
Proof.
  unfold checkAt.
  destruct (String.eqb (DefaultedApproverType (ApproverDetails.Type' a)) "User"
            && negb (String.eqb (ApproverDetails.Name a) (Username request)));
    [destruct newAt as [n |];
       [destruct (negb (String.eqb (ApproverDetails.Input a) (ApproverDetails.Input n)));
          [done |] | done] |];
    (destruct (String.eqb (DefaultedApproverType (ApproverDetails.Type' a)) "Group");
       [by destruct (groupUntouched a _ request) | done]).
Qed.


(** ** The check of the other approvers, over the list *)

Lemma CheckOther_from_true (request : Request) (news olds : list AD) (i : nat) :
  CheckOtherUsersForInvalidChanges_from i olds news request = Ret true
  <-> forall j a, olds !! j = Some a -> checkAt a (news !! (i + j)) request = None.
Proof.
  revert i. induction olds as [| a0 olds IH]; intros i; simpl; [by split |].
  destruct (checkAt a0 (news !! i) request) as [r |] eqn:E.
  - split.
    + intros ->. by apply checkAt_not_true in E.
    + intros H. specialize (H 0 a0 eq_refl). rewrite Nat.add_0_r in H. congruence.
  - rewrite IH. split.
    + intros H [| j] a Hl; simpl in Hl.
      * injection Hl as <-. by rewrite Nat.add_0_r.
      * replace (i + S j) with (S i + j) by lia. by apply H.
    + intros H j a Hl. replace (S i + j) with (i + S j) by lia. by apply H.
Qed.


Lemma CheckOther_true (request : Request) (olds news : list AD) :
  CheckOtherUsersForInvalidChanges olds news request = Ret true
  <-> forall j a, olds !! j = Some a -> checkAt a (news !! j) request = None.
Proof. apply (CheckOther_from_true request news olds 0). Qed.


(** ** What an allowed update may touch *)





(** C3, the claim as worded fails.  The requester changes the input of
    their User entry and the input of a group they belong to: two
    decision values differ and the update is allowed. *)
Lemma two_own_values_allowed :
  let olds := [user "alice" EmptyString; group "qa" EmptyString []] in
  let news := [user "alice" "approve"; group "qa" "approve" []] in
  differingValues olds news = 2
  /\ Admit (update (pending olds) (pending news) (requester "alice" ["qa"])) = Ret allow.
Proof. split; vm_compute; reflexivity. Qed.


(** ** Whose value a validation error is about *)






(** The order of the two rules and the reach of the second one: an
    invalid value the requester gives on her own entry is reported
    first, whatever sits on bob's entry; and a value that bob's entry
    holds unchanged is compared, not validated. *)
Example own_invalid_value_reported_first :
  Admit (update (pending [user "alice" EmptyString; user "bob" EmptyString])
                (pending [user "alice" "maybe"; user "bob" "perhaps"])
                (requester "alice" []))
  = Ret (deny "Invalid input change: invalid input value: 'maybe'. Supported values are 'approve' or 'reject'").
Proof. vm_compute. reflexivity. Qed.

Example unchanged_value_not_validated :
  Admit (update (pending [user "alice" EmptyString; user "bob" "maybe"])
                (pending [user "alice" "approve"; user "bob" "maybe"])
                (requester "alice" []))
  = Ret allow.
Proof. vm_compute. reflexivity. Qed.

(** The same for the input of a group the requester does not belong to
    and for the input of another member of the requester's group. *)
Example foreign_group_value_denied :
  Admit (update (pending [user "alice" EmptyString; group "ops" EmptyString []])
                (pending [user "alice" "approve"; group "ops" "maybe" []])
                (requester "alice" ["qa"]))
  = Ret (deny ownInputOnlyMessage).
Proof. vm_compute. reflexivity. Qed.

Example other_member_value_denied :
  Admit (update (pending [group "qa" EmptyString [member "alice" EmptyString;
                                                  member "bob" EmptyString]])
                (pending [group "qa" EmptyString [member "alice" "approve";
                                                  member "bob" "maybe"]])
                (requester "alice" ["qa"]))
  = Ret (deny ownInputOnlyMessage).
Proof. vm_compute. reflexivity. Qed.

(** ** Where the unguarded reads are *)

(** The search for a change panics at an index exactly when it reads
    the counterpart of the requester's own User entry and the new list
    has none; the Group branch guards every read. *)
Lemma changeAt_panic (request : Request) (a : AD) (newAt : option AD) :
  changeAt a newAt request = Some Panic
  <-> isUserEntry a /\ ApproverDetails.Name a = Username request /\ newAt = None.
Proof.
  split.
  - intros H. pose proof (changeAt_Some_matches _ _ _ _ H) as [[Hu Hn] | [Hg Hb]].
    + rewrite changeAt_user in H by done. by destruct newAt.
    + rewrite changeAt_group in H by done.
      by destruct (groupChange a newAt (Username request)).
  - intros (Hu & Hn & ->). by rewrite changeAt_user.
Qed.

(** The check of the other approvers panics at an index exactly when
    it reads the counterpart of another approver's User entry and the
    new list has none. *)
Lemma checkAt_panic (request : Request) (a : AD) (newAt : option AD) :
  checkAt a newAt request = Some Panic
  <-> isUserEntry a /\ ApproverDetails.Name a <> Username request /\ newAt = None.
Proof.
  destruct newAt as [n |].
  - split; [| by intros (_ & _ & ?)].
    by destruct (checkAt_addressable a n request) as [-> | ->].
  - unfold checkAt, isUserEntry.
    destruct (String.eqb_spec (DefaultedApproverType (ApproverDetails.Type' a)) "User")
      as [Hu | Hu]; simpl.
    + rewrite Hu. replace (String.eqb "User" "Group") with false by reflexivity.
      destruct (String.eqb_spec (ApproverDetails.Name a) (Username request)) as [Hn | Hn];
        simpl; [split; [done | by intros (_ & ? & _)] | by split].
    + destruct (String.eqb (DefaultedApproverType (ApproverDetails.Type' a)) "Group");
        [destruct (groupUntouched a None request) |]; (split; [done | by intros (? & _)]).
Qed.

(** With a new list at least as long as the old one neither function
    panics: the fault needs a shorter new list. *)
Lemma no_panic_when_addressable (request : Request) (olds news : list AD) :
  length olds <= length news ->
  IsUserApprovalChanged olds news request <> Panic
  /\ CheckOtherUsersForInvalidChanges olds news request <> Panic.
Proof.
  intros Hlen. split.
  - destruct (locator_inv request olds news) as [[-> _] | (k & a & r & Hk & _ & Hstop & Hres)];
      [done |].
    intros Hp. rewrite Hp in Hres. subst r.
    apply changeAt_panic in Hstop as (_ & _ & Hnone).
    apply lookup_ge_None in Hnone. apply lookup_lt_Some in Hk. lia.
  - unfold CheckOtherUsersForInvalidChanges.
    assert (forall i, i + length olds <= length news ->
              CheckOtherUsersForInvalidChanges_from i olds news request <> Panic) as H;
      [| apply H; simpl; lia].
    clear Hlen. induction olds as [| a0 olds IH]; intros i Hlen; [done |].
    simpl in *. assert (is_Some (news !! i)) as [n Hn] by (apply lookup_lt_is_Some; lia).
    rewrite Hn. destruct (checkAt_addressable a0 n request) as [-> | ->]; [| done].
    apply IH. lia.
Qed.

(** * Further properties of the admission decision *)

Lemma decideChange_outcomes (oldObj newObj : ApprovalTask.t) (request : Request) :
  decideChange oldObj newObj request = Panic
  \/ decideChange oldObj newObj request = Ret allow
  \/ decideChange oldObj newObj request = Ret (deny ownInputOnlyMessage)
  \/ exists v, v <> "approve" /\ v <> "reject"
       /\ decideChange oldObj newObj request
          = Ret (deny (String.append invalidChangePrefix (invalidInputMessage v))).
Proof.
  unfold decideChange.
  destruct (IsUserApprovalChanged (approversOf oldObj) (approversOf newObj) request)
    as [[b [e |]] |] eqn:Hloc; [| | by left].
  - destruct (locator_found request _ _ (b, Some e) Hloc) as (k & a & n & v & _ & _ & _ & _ & Hv);
      [done |].
    destruct (validated_cases v) as [[_ Hval] | (Ha & Hr & Hval)]; rewrite Hval in Hv; [done |].
    injection Hv as -> ->. right; right; right. by exists v.
  - destruct b; [| by right; right; left].
    destruct (CheckOtherUsersForInvalidChanges _ _ _) as [[|] |]; auto.
Qed.

(** X1. Whatever the request, [Admit] ends in a panic, allows without
    a status, or denies with one of six messages: the old body or the
    new body cannot be decoded, the task is in its final state, the
    user is not in the approval list, the user may only update their
    own input, or the value of their change is invalid, in which case
    the message quotes a value other than "approve" and "reject". *)
Theorem Admit_outcomes (request : Request) :
  Admit request = Panic
  \/ Admit request = Ret allow
  \/ exists message, Admit request = Ret (deny message) /\ DenialMessage message.
Proof.
  assert (forall oldObj newObj,
            decideChange oldObj newObj request = Panic
            \/ decideChange oldObj newObj request = Ret allow
            \/ exists message,
                 decideChange oldObj newObj request = Ret (deny message)
                 /\ DenialMessage message) as Hdec.
  { intros oldObj newObj.
    destruct (decideChange_outcomes oldObj newObj request)
      as [-> | [-> | [-> | (v & Ha & Hr & ->)]]]; auto.
    - right; right. eexists. split; [done | constructor].
    - right; right. eexists. split; [done | by constructor]. }
  assert (forall oldObj,
      (if negb (isApprovalRequired oldObj) then Ret (deny finalStateMessage)
       else if negb (ifUserExists (approversOf oldObj) request)
            then Ret (deny userMissingMessage)
            else match AdmissionRequest.Object request with
                 | RawMalformed err =>
                     Ret (MakeErrorStatus "cannot decode incoming new object: " err)
                 | RawEmpty => decideChange oldObj ApprovalTask.zero request
                 | RawTask newObj => decideChange oldObj newObj request
                 end) = Admit request ->
      Admit request = Panic \/ Admit request = Ret allow
      \/ exists message, Admit request = Ret (deny message) /\ DenialMessage message) as Hold.
  { intros oldObj <-.
    destruct (isApprovalRequired oldObj); simpl;
      [| right; right; eexists; split; [done | constructor]].
    destruct (ifUserExists _ _); simpl;
      [| right; right; eexists; split; [done | constructor]].
    destruct (AdmissionRequest.Object request) as [| err | newObj]; [apply Hdec | | apply Hdec].
    right; right. eexists. split; [done | apply NewUndecodable]. }
  destruct (AdmissionRequest.OldObject request) as [| err | oldObj] eqn:Hraw.
  - apply (Hold ApprovalTask.zero). unfold Admit. by rewrite Hraw.
  - right; right. exists (String.append "cannot decode incoming old object: " err).
    split; [| apply OldUndecodable]. unfold Admit. by rewrite Hraw.
  - apply (Hold oldObj). unfold Admit. by rewrite Hraw.
Qed.

(** ** New lists without entries, unchanged lists, empty old lists *)

Lemma changeAt_absent (request : Request) (a : AD) :
  changeAt a None request = None \/ changeAt a None request = Some Panic.
Proof.
  unfold changeAt.
  destruct (String.eqb (ApproverDetails.Name a) (Username request)
            && String.eqb (DefaultedApproverType (ApproverDetails.Type' a)) "User");
    [by right |].
  destruct (String.eqb (DefaultedApproverType (ApproverDetails.Type' a)) "Group"); [| by left].
  destruct (isUserInGroup a request); [| by left].
  unfold groupChange. simpl. rewrite andb_false_r.
  by destruct (findUser (Username request) (ApproverDetails.Users a)); left.
Qed.

Lemma locator_no_new_entries (request : Request) (olds : list AD) :
  IsUserApprovalChanged olds [] request = Ret (false, None)
  \/ IsUserApprovalChanged olds [] request = Panic.
Proof.
  destruct (locator_inv request olds []) as [[? _] | (k & a & r & _ & _ & Hstop & <-)];
    [by left |].
  rewrite lookup_nil in Hstop.
  destruct (changeAt_absent request a) as [H | H]; rewrite H in Hstop; [done |].
  injection Hstop as <-. by right.
Qed.

(** X2. An update whose new body is empty, or whose new task has no
    approvers, is never allowed: with nothing at any index of the new
    list the search for a change finds none, or panics on the
    requester's own User entry. *)
Theorem no_new_approvers_never_allowed (request : Request) :
  AdmissionRequest.Object request = RawEmpty
  \/ (exists newObj, AdmissionRequest.Object request = RawTask newObj
                     /\ approversOf newObj = []) ->
  Admit request <> Ret allow.
Proof.
  intros Hnew.
  assert (forall oldObj newObj, approversOf newObj = [] ->
            decideChange oldObj newObj request <> Ret allow) as Hdec.
  { intros oldObj newObj Hnil Hallow. apply decideChange_allow in Hallow as [Hloc _].
    rewrite Hnil in Hloc.
    destruct (locator_no_new_entries request (approversOf oldObj)); congruence. }
  unfold Admit.
  destruct (AdmissionRequest.OldObject request) as [| err | oldObj]; [| done |].
  - done.
  - destruct (isApprovalRequired oldObj); [| done]. simpl.
    destruct (ifUserExists _ _); [| done]. simpl.
    destruct Hnew as [-> | (newObj & -> & Hnil)]; by apply Hdec.
Qed.

Lemma no_new_approvers_never_allowed_witness :
  Admit {| AdmissionRequest.Object := RawEmpty;
           AdmissionRequest.OldObject := RawTask (pending [group "qa" EmptyString []]);
           AdmissionRequest.UserInfo := requester "carol" ["qa"] |}
  <> Ret allow.
Proof. apply no_new_approvers_never_allowed. by left. Defined.

Lemma changeAt_same (request : Request) (a : AD) :
  changeAt a (Some a) request = None
  \/ changeAt a (Some a) request = Some (Ret (false, None)).
Proof.
  destruct (changeAt a (Some a) request) as [[r |] |] eqn:E; [| | by left].
  - destruct (decide (r = (false, None))) as [-> | Hr]; [by right |].
    destruct (changeAt_found request a (Some a) r E Hr) as (n & v & [= <-] & Hsite & _).
    destruct Hsite as [_ _ _ Hi | _ _ Hi | u _ _ _ Ho Hn | o u _ _ _ Ho Hn Hi];
      try done; congruence.
  - by apply changeAt_panic in E as (_ & _ & ?).
Qed.

(** X3. An update that leaves the approver list as it was is never
    allowed and never panics: it is denied, with the final-state
    message on a closed task, the user-missing message for a requester
    who matches no entry, and the own-input-only message otherwise. *)
Theorem unchanged_approvers_denied (oldObj newObj : ApprovalTask.t) (who : UserInfo.t) :
  approversOf newObj = approversOf oldObj ->
  Admit (update oldObj newObj who)
  = Ret (deny (if negb (isApprovalRequired oldObj) then finalStateMessage
               else if negb (ifUserExists (approversOf oldObj) (update oldObj newObj who))
                    then userMissingMessage
                    else ownInputOnlyMessage)).
Proof.
  intros Hsame. destruct (isApprovalRequired oldObj) eqn:Hopen; simpl.
  - unfold update. rewrite Admit_open by done. simpl.
    destruct (ifUserExists _ _); [| done]. simpl.
    unfold decideChange. rewrite Hsame.
    destruct (locator_inv (update oldObj newObj who) (approversOf oldObj) (approversOf oldObj))
      as [[Hloc _] | (k & a & r & Hk & _ & Hstop & Hloc)].
    + unfold update in Hloc. by rewrite Hloc.
    + rewrite Hk in Hstop.
      destruct (changeAt_same (update oldObj newObj who) a) as [H | H];
        rewrite H in Hstop; [done |].
      injection Hstop as <-. unfold update in Hloc. by rewrite Hloc.
  - unfold update. by rewrite Admit_old_not_required.
Qed.

Lemma unchanged_approvers_denied_witness :
  Admit (update (pending [user "alice" "approve"; group "qa" EmptyString [member "alice" "reject"]])
                (task [user "alice" "approve"; group "qa" EmptyString [member "alice" "reject"]]
                      1 "approved" 1)
                (requester "alice" ["qa"]))
  = Ret (deny ownInputOnlyMessage).
Proof.
  exact (unchanged_approvers_denied
           (pending [user "alice" "approve"; group "qa" EmptyString [member "alice" "reject"]])
           (task [user "alice" "approve"; group "qa" EmptyString [member "alice" "reject"]]
                 1 "approved" 1)
           (requester "alice" ["qa"]) eq_refl).
Defined.

(** X4. On an open task without approvers every requester passes the
    eligibility test, and every update with a decodable new body is
    denied all the same, with the own-input-only message: there is no
    entry in which a change could be found. *)
Theorem no_approvers_nothing_admitted (oldObj newObj : ApprovalTask.t) (who : UserInfo.t) :
  isApprovalRequired oldObj = true ->
  approversOf oldObj = [] ->
  ifUserExists (approversOf oldObj) (update oldObj newObj who) = true
  /\ Admit (update oldObj newObj who) = Ret (deny ownInputOnlyMessage)
  /\ Admit {| AdmissionRequest.Object := RawEmpty;
              AdmissionRequest.OldObject := RawTask oldObj;
              AdmissionRequest.UserInfo := who |} = Ret (deny ownInputOnlyMessage).
Proof.
  intros Hopen Hnil. split; [by rewrite Hnil |]. split.
  - unfold update. rewrite Admit_open by done. simpl. rewrite Hnil. simpl.
    unfold decideChange. by rewrite Hnil.
  - rewrite Admit_open by done. simpl. rewrite Hnil. simpl.
    unfold decideChange. by rewrite Hnil.
Qed.

Lemma no_approvers_nothing_admitted_witness :
  Admit (update (pending []) (pending [user "mallory" "approve"]) (requester "mallory" []))
  = Ret (deny ownInputOnlyMessage).
Proof.
  exact (proj1 (proj2 (no_approvers_nothing_admitted
                         (pending []) (pending [user "mallory" "approve"])
                         (requester "mallory" []) eq_refl eq_refl))).
Defined.

(** ** When the decision panics *)

(** X5. [Admit] panics only on an open old task, for a requester who
    passes the eligibility test, and with a new approver list shorter
    than the old one (an empty new body counts as the empty list);
    with a new list at least as long as the old one every request
    gets a decision. *)
Theorem Admit_panic_needs_shorter_list (request : Request) :
  Admit request = Panic ->
  exists oldObj,
    AdmissionRequest.OldObject request = RawTask oldObj
    /\ isApprovalRequired oldObj = true
    /\ ifUserExists (approversOf oldObj) request = true
    /\ match AdmissionRequest.Object request with
       | RawTask newObj => length (approversOf newObj) < length (approversOf oldObj)
       | RawEmpty => 0 < length (approversOf oldObj)
       | RawMalformed _ => False
       end.
Proof.
  assert (forall oldObj newObj,
            decideChange oldObj newObj request = Panic ->
            length (approversOf newObj) < length (approversOf oldObj)) as Hdec.
  { intros oldObj newObj Hp.
    destruct (decide (length (approversOf oldObj) <= length (approversOf newObj)))
      as [Hle |]; [| lia].
    destruct (no_panic_when_addressable request _ _ Hle) as [Hloc Hcheck].
    unfold decideChange in Hp.
    destruct (IsUserApprovalChanged _ _ _) as [[[|] [e |]] |]; try done.
    by destruct (CheckOtherUsersForInvalidChanges _ _ _) as [[|] |]. }
  unfold Admit.
  destruct (AdmissionRequest.OldObject request) as [| err | oldObj]; [done | done |].
  destruct (isApprovalRequired oldObj) eqn:Hopen; [| done]. simpl.
  destruct (ifUserExists _ _) eqn:Hel; [| done]. simpl.
  intros Hp. exists oldObj. split; [done |]. split; [done |]. split; [done |].
  destruct (AdmissionRequest.Object request) as [| err | newObj]; [| done |].
  - by apply Hdec in Hp.
  - by apply Hdec.
Qed.

Lemma Admit_panic_needs_shorter_list_witness :
  exists oldObj,
    RawTask (pending [user "alice" EmptyString]) = RawTask oldObj
    /\ isApprovalRequired oldObj = true
    /\ ifUserExists (approversOf oldObj)
         (update (pending [user "alice" EmptyString]) (pending []) (requester "alice" []))
       = true
    /\ length (approversOf (pending [])) < length (approversOf oldObj).
Proof.
  apply (Admit_panic_needs_shorter_list
           (update (pending [user "alice" EmptyString]) (pending []) (requester "alice" []))).
  vm_compute. reflexivity.
Defined.

(** ** The eligibility test and the search for a change *)

(** X6. For a requester who fails the eligibility test the search for
    a change returns "no change" on every new list, without a panic
    and without a validation error: the test decides the message of
    the denial, not whether the update is denied. *)
Theorem ineligible_requester_changes_nothing (request : Request) (olds news : list AD) :
  ifUserExists olds request = false ->
  IsUserApprovalChanged olds news request = Ret (false, None)
  /\ forall oldObj newObj,
       approversOf oldObj = olds -> approversOf newObj = news ->
       decideChange oldObj newObj request = Ret (deny ownInputOnlyMessage).
Proof.
  intros Hno.
  assert (IsUserApprovalChanged olds news request = Ret (false, None)) as Hloc.
  { destruct (locator_inv request olds news) as [[? _] | (k & a & r & Hk & _ & Hstop & _)];
      [done |].
    apply changeAt_Some_matches in Hstop.
    assert (ifUserExists olds request = true); [| congruence].
    apply ifUserExists_true. right. exists a. split; [| done].
    by eapply list_elem_of_lookup_2. }
  split; [done |]. intros oldObj newObj <- <-. unfold decideChange. by rewrite Hloc.
Qed.

Lemma ineligible_requester_changes_nothing_witness :
  IsUserApprovalChanged [user "alice" EmptyString; group "qa" EmptyString []] []
    (update (pending [user "alice" EmptyString; group "qa" EmptyString []]) (pending [])
            (requester "bob" ["dev"]))
  = Ret (false, None).
Proof.
  exact (proj1 (ineligible_requester_changes_nothing
                  (update (pending [user "alice" EmptyString; group "qa" EmptyString []])
                          (pending []) (requester "bob" ["dev"]))
                  [user "alice" EmptyString; group "qa" EmptyString []] [] eq_refl)).
Defined.

(** ** What the decision reads of the new object *)

Lemma changeAt_sameAt (request request' : Request) (a : AD) (newAt newAt' : option AD) :
  AdmissionRequest.UserInfo request = AdmissionRequest.UserInfo request' ->
  sameAt newAt newAt' ->
  changeAt a newAt request = changeAt a newAt' request'.
Proof.
  intros Hwho Hsame.
  destruct newAt as [[name input ty users] |], newAt' as [[name' input' ty' users'] |];
    try done.
  - destruct Hsame as (Hn & Hi & Hu). simpl in Hn, Hi, Hu. subst.
    unfold changeAt, hasOnlyInputChanged, groupChange, isUserInGroup, Username, Groups.
    simpl. by rewrite Hwho.
  - unfold changeAt, groupChange, isUserInGroup, Username, Groups. by rewrite Hwho.
Qed.

Lemma checkAt_sameAt (request request' : Request) (a : AD) (newAt newAt' : option AD) :
  AdmissionRequest.UserInfo request = AdmissionRequest.UserInfo request' ->
  sameAt newAt newAt' ->
  checkAt a newAt request = checkAt a newAt' request'.
Proof.
  intros Hwho Hsame.
  destruct newAt as [[name input ty users] |], newAt' as [[name' input' ty' users'] |];
    try done.
  - destruct Hsame as (Hn & Hi & Hu). simpl in Hn, Hi, Hu. subst.
    unfold checkAt, groupUntouched, isUserInGroup, Username, Groups.
    simpl. by rewrite Hwho.
  - unfold checkAt, groupUntouched, isUserInGroup, Username, Groups. by rewrite Hwho.
Qed.

Lemma ifUserExists_who (request request' : Request) (olds : list AD) :
  AdmissionRequest.UserInfo request = AdmissionRequest.UserInfo request' ->
  ifUserExists olds request = ifUserExists olds request'.
Proof. intros Hwho. unfold ifUserExists, Username, Groups. by rewrite Hwho. Qed.

(** The two loops agree on new lists that agree, index by index, in
    what the loop bodies return. *)
Lemma IsUserApprovalChanged_from_ext (request request' : Request) (news news' olds : list AD)
    (i : nat) :
  (forall j a, olds !! j = Some a ->
     changeAt a (news !! (i + j)) request = changeAt a (news' !! (i + j)) request') ->
  IsUserApprovalChanged_from i olds news request
  = IsUserApprovalChanged_from i olds news' request'.
Proof.
  revert i. induction olds as [| a0 olds IH]; intros i Hext; [done |]. simpl.
  pose proof (Hext 0 a0 eq_refl) as H0. rewrite Nat.add_0_r in H0. rewrite H0.
  destruct (changeAt a0 (news' !! i) request'); [done |].
  apply IH. intros j a Hj. replace (S i + j) with (i + S j) by lia. by apply Hext.
Qed.

Lemma CheckOther_from_ext (request request' : Request) (news news' olds : list AD) (i : nat) :
  (forall j a, olds !! j = Some a ->
     checkAt a (news !! (i + j)) request = checkAt a (news' !! (i + j)) request') ->
  CheckOtherUsersForInvalidChanges_from i olds news request
  = CheckOtherUsersForInvalidChanges_from i olds news' request'.
Proof.
  revert i. induction olds as [| a0 olds IH]; intros i Hext; [done |]. simpl.
  pose proof (Hext 0 a0 eq_refl) as H0. rewrite Nat.add_0_r in H0. rewrite H0.
  destruct (checkAt a0 (news' !! i) request'); [done |].
  apply IH. intros j a Hj. replace (S i + j) with (i + S j) by lia. by apply Hext.
Qed.

(** X7. The decision reads of the new object nothing but the name, the
    input and the members of the approvers at the indices of the old
    list: two new tasks that agree there get the same answer, however
    they differ in the types of their entries, in entries appended
    beyond the old list's length, in the required number of approvals
    or in their status. *)
Theorem decision_reads_new_prefix_only (oldObj newObj newObj' : ApprovalTask.t)
    (who : UserInfo.t) :
  sameUpTo (length (approversOf oldObj)) (approversOf newObj) (approversOf newObj') ->
  IsUserApprovalChanged (approversOf oldObj) (approversOf newObj) (update oldObj newObj who)
  = IsUserApprovalChanged (approversOf oldObj) (approversOf newObj') (update oldObj newObj' who)
  /\ CheckOtherUsersForInvalidChanges (approversOf oldObj) (approversOf newObj)
       (update oldObj newObj who)
     = CheckOtherUsersForInvalidChanges (approversOf oldObj) (approversOf newObj')
         (update oldObj newObj' who)
  /\ Admit (update oldObj newObj who) = Admit (update oldObj newObj' who).
Proof.
  intros Hsame.
  assert (forall j a, approversOf oldObj !! j = Some a ->
            sameAt (approversOf newObj !! j) (approversOf newObj' !! j)) as Hat.
  { intros j a Hj. apply Hsame. by apply lookup_lt_Some in Hj. }
  assert (IsUserApprovalChanged (approversOf oldObj) (approversOf newObj)
            (update oldObj newObj who)
          = IsUserApprovalChanged (approversOf oldObj) (approversOf newObj')
              (update oldObj newObj' who)) as Hloc.
  { apply IsUserApprovalChanged_from_ext. intros j a Hj.
    apply changeAt_sameAt; [done | by apply (Hat j a)]. }
  assert (CheckOtherUsersForInvalidChanges (approversOf oldObj) (approversOf newObj)
            (update oldObj newObj who)
          = CheckOtherUsersForInvalidChanges (approversOf oldObj) (approversOf newObj')
              (update oldObj newObj' who)) as Hcheck.
  { apply CheckOther_from_ext. intros j a Hj.
    apply checkAt_sameAt; [done | by apply (Hat j a)]. }
  split; [done |]. split; [done |].
  destruct (isApprovalRequired oldObj) eqn:Hopen.
  - unfold update in *. rewrite !Admit_open by done. simpl.
    rewrite (ifUserExists_who _ (update oldObj newObj' who)) by done. unfold update.
    destruct (ifUserExists _ _); [| done].
    unfold decideChange. by rewrite Hloc, Hcheck.
  - unfold update. by rewrite !Admit_old_not_required.
Qed.

Lemma decision_reads_new_prefix_only_witness :
  Admit (update (pending [user "alice" EmptyString])
                (pending [user "alice" "approve"]) (requester "alice" []))
  = Admit (update (pending [user "alice" EmptyString])
                  (task [group "alice" "approve" []; user "mallory" "approve"] 0 "approved" 0)
                  (requester "alice" [])).
Proof.
  apply (decision_reads_new_prefix_only
           (pending [user "alice" EmptyString]) (pending [user "alice" "approve"])
           (task [group "alice" "approve" []; user "mallory" "approve"] 0 "approved" 0)
           (requester "alice" [])).
  intros j Hj. destruct j as [| j]; [| simpl in Hj; lia].
  repeat split.
Defined.

(** X8. An entry of the old list whose type is neither User nor Group
    is inert: it makes no requester eligible, and neither the search
    for a change nor the check of the other approvers looks at what
    the new list holds at its index.  Two new lists that differ only
    at the indices of such entries get the same results. *)
Theorem other_types_are_inert (request : Request) (olds news news' : list AD) :
  (forall j a, olds !! j = Some a -> otherType a \/ news !! j = news' !! j) ->
  (forall a, a ∈ olds -> otherType a -> ~ matchesRequester request a)
  /\ IsUserApprovalChanged olds news request = IsUserApprovalChanged olds news' request
  /\ CheckOtherUsersForInvalidChanges olds news request
     = CheckOtherUsersForInvalidChanges olds news' request.
Proof.
  intros Hat. split; [| split].
  - intros a _ [Hu Hg] [[? _] | [? _]]; done.
  - apply IsUserApprovalChanged_from_ext. intros j a Hj. simpl.
    destruct (Hat j a Hj) as [[Hu Hg] | ->]; [| done].
    rewrite !changeAt_stranger; [done | |]; intros [[? _] | [? _]]; done.
  - apply CheckOther_from_ext. intros j a Hj. simpl.
    destruct (Hat j a Hj) as [[Hu Hg] | ->]; [| done].
    assert (forall newAt, checkAt a newAt request = None) as Hnone.
    { intros newAt. apply checkAt_None. split; [by intros ? | by intros ?]. }
    by rewrite !Hnone.
Qed.

Lemma other_types_are_inert_witness :
  IsUserApprovalChanged [user "alice" EmptyString; ApproverDetails.mk "robot" EmptyString "Bot" []]
    [user "alice" "approve"; ApproverDetails.mk "robot" EmptyString "Bot" []]
    (update (pending []) (pending []) (requester "alice" []))
  = IsUserApprovalChanged
      [user "alice" EmptyString; ApproverDetails.mk "robot" EmptyString "Bot" []]
      [user "alice" "approve"]
      (update (pending []) (pending []) (requester "alice" [])).
Proof.
  apply (other_types_are_inert (update (pending []) (pending []) (requester "alice" []))
           [user "alice" EmptyString; ApproverDetails.mk "robot" EmptyString "Bot" []]
           [user "alice" "approve"; ApproverDetails.mk "robot" EmptyString "Bot" []]
           [user "alice" "approve"]).
  intros [| [| j]] a Hj; simpl in Hj; [by right | | done].
  injection Hj as <-. left. split; discriminate.
Defined.

(** ** Members that are dropped or added *)

Lemma recordedInput_listed (users : list UD) (name : string) :
  is_Some (recordedInput users name)
  <-> exists u, u ∈ users /\ UserDetails.Name u = name.
Proof.
  unfold recordedInput.
  destruct (findUser name (reverse users)) as [u |] eqn:E; simpl.
  - apply findUser_Some in E as [Hin Hn]. rewrite elem_of_reverse in Hin.
    split; [by exists u | by eexists].
  - split; [by intros [? ?] |]. intros (u & Hin & Hn).
    apply findUser_None in E. destruct E. exists u. by rewrite elem_of_reverse.
Qed.

(** X9. The check of the other approvers compares what the new list
    still holds and does not look for what is gone.  It passes when
    every entry of the old list other than the requester's own User
    entries has a counterpart with the same input whose recorded
    members all were recorded with the same input before: members of
    any group may be dropped. *)
Theorem dropped_members_pass_the_check (request : Request) (olds news : list AD) :
  (forall j a, olds !! j = Some a ->
     (isUserEntry a /\ ApproverDetails.Name a = Username request)
     \/ exists n, news !! j = Some n
          /\ ApproverDetails.Input n = ApproverDetails.Input a
          /\ forall name v,
               recordedInput (ApproverDetails.Users n) name = Some v ->
               recordedInput (ApproverDetails.Users a) name = Some v) ->
  CheckOtherUsersForInvalidChanges olds news request = Ret true.
Proof.
  intros Hall. apply CheckOther_true. intros j a Hj. apply checkAt_None.
  destruct (Hall j a Hj) as [[Hu Hown] | (n & -> & Hi & Hmem)].
  - split; [done |]. intros Hg. by destruct (user_not_group a).
  - split.
    + intros _ _. by exists n.
    + intros _. apply groupUntouched_true. simpl. split; [| split].
      * by intros _ n' [= <-].
      * intros name oi ni _ Ho Hn. apply Hmem in Hn. congruence.
      * intros name ni Hn Ho. apply Hmem in Hn. congruence.
Qed.

Lemma dropped_members_pass_the_check_witness :
  CheckOtherUsersForInvalidChanges
    [user "alice" EmptyString; group "ops" EmptyString [member "bob" "approve"; member "carol" "reject"]]
    [user "alice" "approve"; group "ops" EmptyString [member "carol" "reject"]]
    (update (pending []) (pending []) (requester "alice" []))
  = Ret true.
Proof.
  apply dropped_members_pass_the_check.
  intros [| [| j]] a Hj; simpl in Hj; [| | done]; injection Hj as <-.
  - left. split; reflexivity.
  - right. exists (group "ops" EmptyString [member "carol" "reject"]).
    split; [reflexivity |]. split; [reflexivity |].
    intros name v. unfold recordedInput, findUser.
    change (reverse (ApproverDetails.Users (group "ops" EmptyString [member "carol" "reject"])))
      with [member "carol" "reject"].
    change (reverse (ApproverDetails.Users
                       (group "ops" EmptyString [member "bob" "approve"; member "carol" "reject"])))
      with [member "carol" "reject"; member "bob" "approve"].
    cbn [find UserDetails.Name member].
    destruct (String.eqb "carol" name); [done |].
    intros H. discriminate H.
Defined.

(** X10. In an allowed update, for an entry that the old list holds
    as a Group entry and the entry at the same index of the new list:
    a member name that the new entry's member list records and the old
    entry's does not is the requester's own username, and the group's
    name is one of the groups the requester's identity carries.
    Entries appended beyond the old list's length and entries that
    the old list holds under another type are not covered. *)
Theorem self_added_member_needs_group (oldObj newObj : ApprovalTask.t) (who : UserInfo.t)
    (j : nat) (a n : AD) (name v : string) :
  Admit (update oldObj newObj who) = Ret allow ->
  approversOf oldObj !! j = Some a ->
  approversOf newObj !! j = Some n ->
  isGroupEntry a ->
  recordedInput (ApproverDetails.Users n) name = Some v ->
  recordedInput (ApproverDetails.Users a) name = None ->
  name = UserInfo.Username who /\ ApproverDetails.Name a ∈ UserInfo.Groups who.
Proof.
  intros Hallow Hj Hn Hg Hnew Hold.
  apply Admit_update_allow in Hallow as (_ & _ & Hdec).
  apply decideChange_allow in Hdec as [_ Hcheck].
  pose proof (proj1 (CheckOther_true _ _ _) Hcheck j a Hj) as Hnone.
  rewrite Hn in Hnone. apply checkAt_None in Hnone as [_ H].
  apply H, groupUntouched_true in Hg as (_ & _ & Hadd).
  destruct (Hadd name v Hnew Hold) as [-> [Hgroups | Hlisted]]; [done |].
  apply recordedInput_listed in Hlisted. rewrite Hold in Hlisted. by destruct Hlisted.
Qed.

Lemma self_added_member_needs_group_witness :
  "carol" = UserInfo.Username (requester "carol" ["qa"])
  /\ "qa" ∈ UserInfo.Groups (requester "carol" ["qa"]).
Proof.
  apply (self_added_member_needs_group
           (pending [group "qa" EmptyString []])
           (pending [group "qa" EmptyString [member "carol" "approve"]])
           (requester "carol" ["qa"]) 0
           (group "qa" EmptyString []) (group "qa" EmptyString [member "carol" "approve"])
           "carol" "approve");
    vm_compute; reflexivity.
Defined.

(** X11. The eligibility test depends on which entries the list holds,
    not on their order or number of occurrences: two lists with the
    same entries give the same answer for every requester. *)
Theorem eligibility_ignores_order (request : Request) (approvals approvals' : list AD) :
  (forall a, a ∈ approvals <-> a ∈ approvals') ->
  ifUserExists approvals request = ifUserExists approvals' request.
Proof.
  intros Hsame.
  assert (forall l l' : list AD,
            (forall a, a ∈ l <-> a ∈ l') ->
            ifUserExists l request = true -> ifUserExists l' request = true) as Himp.
  { intros l l' Hll H. apply ifUserExists_true in H as [-> | (a & Hin & Ha)];
      apply ifUserExists_true.
    - left. destruct l' as [| x l']; [done |].
      assert (x ∈ []) as Hx by (apply Hll; left). by apply elem_of_nil in Hx.
    - right. exists a. split; [by apply Hll | done]. }
  destruct (ifUserExists approvals request) eqn:E, (ifUserExists approvals' request) eqn:E';
    try done.
  - by rewrite (Himp approvals approvals' Hsame E) in E'.
  - assert (forall a, a ∈ approvals' <-> a ∈ approvals) as Hsym by (intros a; by rewrite Hsame).
    by rewrite (Himp approvals' approvals Hsym E') in E.
Qed.

Lemma eligibility_ignores_order_witness :
  ifUserExists [user "alice" EmptyString; group "qa" EmptyString []]
               (update (pending []) (pending []) (requester "bob" ["qa"]))
  = ifUserExists [group "qa" EmptyString []; user "alice" EmptyString; group "qa" EmptyString []]
                 (update (pending []) (pending []) (requester "bob" ["qa"])).
Proof.
  apply eligibility_ignores_order. intros a.
  rewrite !elem_of_cons, !elem_of_nil. tauto.
Defined.

(** * Properties of the registration of the webhook *)

Lemma setWebhooks_cons (name : string) (caCert : list Byte.byte) (path : string)
    (wh : VW) (rest webhooks' : list VW) :
  setWebhooks name caCert path (wh :: rest) = inr webhooks' ->
  exists wh' rest',
    webhooks' = wh' :: rest'
    /\ setWebhooks name caCert path rest = inr rest'
    /\ ((ValidatingWebhook.Name wh <> name /\ wh' = wh)
        \/ (ValidatingWebhook.Name wh = name
            /\ exists svc,
                 WebhookClientConfig.Service (ValidatingWebhook.ClientConfig wh) = Some svc
                 /\ wh' = setWebhook wh svc caCert path)).
Proof.
  simpl. destruct (String.eqb_spec (ValidatingWebhook.Name wh) name) as [Hn | Hn]; simpl.
  - destruct (WebhookClientConfig.Service (ValidatingWebhook.ClientConfig wh)) as [svc |];
      [| done].
    destruct (setWebhooks name caCert path rest) as [e | rest']; [done |].
    intros [= <-]. exists (setWebhook wh svc caCert path), rest'.
    split; [done |]. split; [done |]. right. split; [done |]. by exists svc.
  - destruct (setWebhooks name caCert path rest) as [e | rest']; [done |].
    intros [= <-]. exists wh, rest'. split; [done |]. split; [done |]. by left.
Qed.

(** The loop keeps the number and order of the webhooks, leaves those
    of another name alone and rewrites those of the given name. *)
Lemma setWebhooks_lookup (name : string) (caCert : list Byte.byte) (path : string)
    (webhooks webhooks' : list VW) :
  setWebhooks name caCert path webhooks = inr webhooks' ->
  length webhooks' = length webhooks
  /\ forall i wh, webhooks !! i = Some wh ->
       (ValidatingWebhook.Name wh <> name -> webhooks' !! i = Some wh)
       /\ (ValidatingWebhook.Name wh = name ->
           exists svc,
             WebhookClientConfig.Service (ValidatingWebhook.ClientConfig wh) = Some svc
             /\ webhooks' !! i = Some (setWebhook wh svc caCert path)).
Proof.
  revert webhooks'. induction webhooks as [| wh rest IH]; intros webhooks' H.
  - injection H as <-. split; [done |]. intros i wh Hi. done.
  - apply setWebhooks_cons in H as (wh' & rest' & -> & Hrest & Hwh).
    destruct (IH rest' Hrest) as [Hlen Hall]. split; [simpl; by rewrite Hlen |].
    intros [| i] wh0 Hi; simpl in Hi.
    + injection Hi as <-. simpl.
      destruct Hwh as [[Hne ->] | (Heq & svc & Hsvc & ->)]; split; try done.
      intros _. by exists svc.
    + simpl. by apply Hall.
Qed.

(** The loop fails exactly when a webhook of the given name has no
    service reference, and the error bears that name. *)
Lemma setWebhooks_error (name : string) (caCert : list Byte.byte) (path : string)
    (webhooks : list VW) :
  (exists wh, wh ∈ webhooks /\ ValidatingWebhook.Name wh = name
              /\ WebhookClientConfig.Service (ValidatingWebhook.ClientConfig wh) = None)
  <-> setWebhooks name caCert path webhooks = inl (MissingService name).
Proof.
  induction webhooks as [| wh rest IH]; simpl.
  - split; [| done]. intros (wh & Hin & _). by apply elem_of_nil in Hin.
  - destruct (String.eqb_spec (ValidatingWebhook.Name wh) name) as [Hn | Hn]; simpl.
    + destruct (WebhookClientConfig.Service (ValidatingWebhook.ClientConfig wh))
        as [svc |] eqn:Hsvc.
      * destruct (setWebhooks name caCert path rest) as [e | rest'] eqn:Hrest.
        -- split.
           ++ intros (wh0 & Hin & Hn0 & Hs0). apply elem_of_cons in Hin as [-> | Hin];
                [congruence |].
              assert (inl e = inl (MissingService name) :> ReconcileError + list VW) as H
                  by (apply IH; by exists wh0).
              done.
           ++ intros H. apply IH in H as (wh0 & Hin & ?). exists wh0.
              split; [by right | done].
        -- split; [| done]. intros (wh0 & Hin & Hn0 & Hs0).
           apply elem_of_cons in Hin as [-> | Hin]; [congruence |].
           assert (inr rest' = inl (MissingService name) :> ReconcileError + list VW) as H
               by (apply IH; by exists wh0).
           done.
      * split; [by rewrite Hn | intros _; exists wh; split; [by left | done]].
    + destruct (setWebhooks name caCert path rest) as [e | rest'] eqn:Hrest.
      * split.
        -- intros (wh0 & Hin & Hn0 & Hs0). apply elem_of_cons in Hin as [-> | Hin]; [done |].
           assert (inl e = inl (MissingService name) :> ReconcileError + list VW) as H
               by (apply IH; by exists wh0).
           done.
        -- intros H. apply IH in H as (wh0 & Hin & ?). exists wh0. split; [by right | done].
      * split; [| done]. intros (wh0 & Hin & Hn0 & Hs0).
        apply elem_of_cons in Hin as [-> | Hin]; [done |].
        assert (inr rest' = inl (MissingService name) :> ReconcileError + list VW) as H
            by (apply IH; by exists wh0).
        done.
Qed.

Lemma setWebhooks_only_error (name : string) (caCert : list Byte.byte) (path : string)
    (webhooks : list VW) (e : ReconcileError) :
  setWebhooks name caCert path webhooks = inl e -> e = MissingService name.
Proof.
  induction webhooks as [| wh rest IH]; simpl; [done |].
  destruct (String.eqb_spec (ValidatingWebhook.Name wh) name) as [Hn | Hn]; simpl.
  - destruct (WebhookClientConfig.Service (ValidatingWebhook.ClientConfig wh));
      [| intros [= <-]; by rewrite Hn].
    destruct (setWebhooks name caCert path rest); [| done]. intros [= <-]. by apply IH.
  - destruct (setWebhooks name caCert path rest); [| done]. intros [= <-]. by apply IH.
Qed.

(** Running the loop on its own result, with any bundle and path,
    gives what running it on the original list gives: the last run
    decides, and a second run with the same bundle and path changes
    nothing. *)
Lemma setWebhooks_again (name : string) (caCert caCert' : list Byte.byte)
    (path path' : string) (webhooks webhooks' : list VW) :
  setWebhooks name caCert path webhooks = inr webhooks' ->
  setWebhooks name caCert' path' webhooks' = setWebhooks name caCert' path' webhooks.
Proof.
  revert webhooks'. induction webhooks as [| wh rest IH]; intros webhooks' H.
  - by injection H as <-.
  - apply setWebhooks_cons in H as (wh' & rest' & -> & Hrest & Hwh).
    simpl. rewrite (IH rest' Hrest).
    destruct Hwh as [[Hne ->] | (Heq & svc & Hsvc & ->)]; [done |].
    simpl. rewrite Heq, String.eqb_refl, Hsvc. simpl.
    by destruct (setWebhooks name caCert' path' rest).
Qed.

Lemma setWebhooks_idempotent (name : string) (caCert : list Byte.byte) (path : string)
    (webhooks webhooks' : list VW) :
  setWebhooks name caCert path webhooks = inr webhooks' ->
  setWebhooks name caCert path webhooks' = inr webhooks'.
Proof. intros H. by rewrite (setWebhooks_again _ _ _ _ _ _ _ H). Qed.

(** The steps a run has gone through when it reaches the comparison. *)
Lemma Reconcile_compared (r : reconciler.t) (key : string) (secret : Secret.t)
    (caCert : list Byte.byte) (configured : VWC) (webhooks : list VW) :
  reconciler.IsLeaderFor r (reconciler.key r) = true ->
  reconciler.secretlister r !! (reconciler.systemNamespace r, reconciler.secretName r)
  = Some secret ->
  Secret.Data secret !! CACert = Some caCert ->
  reconciler.vwhlister r !! NamespacedName.Name (reconciler.key r) = Some configured ->
  setWebhooks (ValidatingWebhookConfiguration.Name configured) caCert (Path r)
              (ValidatingWebhookConfiguration.Webhooks configured) = inr webhooks ->
  Reconcile r key
  = match reconciler.SafeEqual r configured (withWebhooks configured webhooks) with
    | inl err => failed (DiffError err)
    | inr false =>
      {| Run.err := UpdateFailed <$> reconciler.clientUpdate r (withWebhooks configured webhooks);
         Run.updated := Some (withWebhooks configured webhooks) |}
    | inr true => {| Run.err := None; Run.updated := None |}
    end.
Proof.
  intros Hlead Hsecret Hca Hcfg Hset. unfold Reconcile, reconcileValidatingWebhook.
  rewrite Hlead, Hsecret, Hca, Hcfg, Hset. simpl.
  destruct (reconciler.SafeEqual r configured (withWebhooks configured webhooks))
    as [err | [|]]; [done | done |].
  by destruct (reconciler.clientUpdate r (withWebhooks configured webhooks)).
Qed.

Lemma Reconcile_inv (r : reconciler.t) (key : string) :
  (Run.updated (Reconcile r key) = None
   /\ (Run.err (Reconcile r key) = None \/
       exists e, Run.err (Reconcile r key) = Some e /\ forall msg, e <> UpdateFailed msg))
  \/ exists secret caCert configured webhooks,
       reconciler.IsLeaderFor r (reconciler.key r) = true
       /\ reconciler.secretlister r !! (reconciler.systemNamespace r, reconciler.secretName r)
          = Some secret
       /\ Secret.Data secret !! CACert = Some caCert
       /\ reconciler.vwhlister r !! NamespacedName.Name (reconciler.key r) = Some configured
       /\ setWebhooks (ValidatingWebhookConfiguration.Name configured) caCert (Path r)
                      (ValidatingWebhookConfiguration.Webhooks configured) = inr webhooks
       /\ reconciler.SafeEqual r configured (withWebhooks configured webhooks) = inr false
       /\ Reconcile r key
          = {| Run.err := UpdateFailed <$>
                            reconciler.clientUpdate r (withWebhooks configured webhooks);
               Run.updated := Some (withWebhooks configured webhooks) |}.
Proof.
  destruct (reconciler.IsLeaderFor r (reconciler.key r)) eqn:Hlead.
  2: { left. unfold Reconcile. rewrite Hlead. simpl. split; [done |]. right. by eexists. }
  destruct (reconciler.secretlister r !! (reconciler.systemNamespace r, reconciler.secretName r))
    as [secret |] eqn:Hsecret.
  2: { left. unfold Reconcile. rewrite Hlead, Hsecret. simpl. split; [done |].
       right. by eexists. }
  destruct (Secret.Data secret !! CACert) as [caCert |] eqn:Hca.
  2: { left. unfold Reconcile. rewrite Hlead, Hsecret, Hca. simpl. split; [done |].
       right. by eexists. }
  destruct (reconciler.vwhlister r !! NamespacedName.Name (reconciler.key r))
    as [configured |] eqn:Hcfg.
  2: { left. unfold Reconcile, reconcileValidatingWebhook.
       rewrite Hlead, Hsecret, Hca, Hcfg. simpl. split; [done |]. right. by eexists. }
  destruct (setWebhooks (ValidatingWebhookConfiguration.Name configured) caCert (Path r)
                        (ValidatingWebhookConfiguration.Webhooks configured))
    as [e | webhooks] eqn:Hset.
  { left. unfold Reconcile, reconcileValidatingWebhook.
    rewrite Hlead, Hsecret, Hca, Hcfg, Hset. simpl. split; [done |].
    right. exists e. split; [done |]. apply setWebhooks_only_error in Hset as ->. done. }
  pose proof (Reconcile_compared r key secret caCert configured webhooks
                Hlead Hsecret Hca Hcfg Hset) as Hrun.
  destruct (reconciler.SafeEqual r configured (withWebhooks configured webhooks))
    as [err | [|]] eqn:Heq.
  - left. rewrite Hrun. simpl. split; [done |]. right. by eexists.
  - left. rewrite Hrun. simpl. split; [done |]. by left.
  - right. by exists secret, caCert, configured, webhooks.
Qed.

(** X12. A run that returns an error other than a failed update has
    not called the client's [Update]; a run that returns a failed
    update has called it once, with the object the client refused. *)
Theorem Reconcile_failure_sends_nothing (r : reconciler.t) (key : string)
    (e : ReconcileError) :
  Run.err (Reconcile r key) = Some e ->
  ((forall msg, e <> UpdateFailed msg) -> Run.updated (Reconcile r key) = None)
  /\ (forall msg, e = UpdateFailed msg ->
        exists w, Run.updated (Reconcile r key) = Some w
                  /\ reconciler.clientUpdate r w = Some msg).
Proof.
  intros He.
  destruct (Reconcile_inv r key)
    as [[Hnone Herr] | (secret & caCert & configured & webhooks & _ & _ & _ & _ & _ & _ & Hrun)].
  - split; [done |]. intros msg ->.
    destruct Herr as [Herr | (e' & Herr & Hne)]; [congruence |].
    rewrite He in Herr. injection Herr as <-. by destruct (Hne msg).
  - rewrite Hrun in He |- *. simpl in *.
    destruct (reconciler.clientUpdate r (withWebhooks configured webhooks)) as [msg' |] eqn:Hup;
      [| done].
    injection He as <-. split; [intros Hne; by destruct (Hne msg') |].
    intros msg [= <-]. by eexists.
Qed.

Lemma Reconcile_failure_sends_nothing_witness :
  Run.updated (Reconcile (leading "approval.webhook" "/validate" "certs" "system" ∅ ∅) "key")
  = None.
Proof.
  assert (Run.err (Reconcile (leading "approval.webhook" "/validate" "certs" "system" ∅ ∅)
                             "key")
          = Some (SecretNotFound "system" "certs")) as Herr by (vm_compute; reflexivity).
  apply (proj1 (Reconcile_failure_sends_nothing
                  (leading "approval.webhook" "/validate" "certs" "system" ∅ ∅) "key"
                  (SecretNotFound "system" "certs") Herr)).
  discriminate.
Defined.

(** X13. The object a run passes to [Update] is the configuration the
    lister holds under the watched name, with its owner references
    dropped, its name, resource version and labels kept, and as many
    webhooks in the same order: a webhook of another name than the
    configuration's is passed on as it is; a webhook of that name
    keeps its fields but gets the rules for updates of approval
    tasks, the CA certificate of the secret as its bundle and the
    reconciler's path in its service reference.  The run is the
    leader's, and the comparison has found a difference. *)
Theorem Reconcile_update_content (r : reconciler.t) (key : string) (w : VWC) :
  Run.updated (Reconcile r key) = Some w ->
  exists secret caCert configured,
    reconciler.IsLeaderFor r (reconciler.key r) = true
    /\ reconciler.secretlister r !! (reconciler.systemNamespace r, reconciler.secretName r)
       = Some secret
    /\ Secret.Data secret !! CACert = Some caCert
    /\ reconciler.vwhlister r !! NamespacedName.Name (reconciler.key r) = Some configured
    /\ reconciler.SafeEqual r configured w = inr false
    /\ ValidatingWebhookConfiguration.OwnerReferences w = []
    /\ ValidatingWebhookConfiguration.Name w = ValidatingWebhookConfiguration.Name configured
    /\ ValidatingWebhookConfiguration.ResourceVersion w
       = ValidatingWebhookConfiguration.ResourceVersion configured
    /\ ValidatingWebhookConfiguration.Labels w = ValidatingWebhookConfiguration.Labels configured
    /\ length (ValidatingWebhookConfiguration.Webhooks w)
       = length (ValidatingWebhookConfiguration.Webhooks configured)
    /\ forall i wh,
         ValidatingWebhookConfiguration.Webhooks configured !! i = Some wh ->
         (ValidatingWebhook.Name wh <> ValidatingWebhookConfiguration.Name configured ->
          ValidatingWebhookConfiguration.Webhooks w !! i = Some wh)
         /\ (ValidatingWebhook.Name wh = ValidatingWebhookConfiguration.Name configured ->
             exists svc wh',
               WebhookClientConfig.Service (ValidatingWebhook.ClientConfig wh) = Some svc
               /\ ValidatingWebhookConfiguration.Webhooks w !! i = Some wh'
               /\ wh' = setWebhook wh svc caCert (reconciler.path r)
               /\ ValidatingWebhook.Rules wh' = rules
               /\ WebhookClientConfig.CABundle (ValidatingWebhook.ClientConfig wh') = caCert
               /\ (ServiceReference.Path <$>
                     WebhookClientConfig.Service (ValidatingWebhook.ClientConfig wh'))
                  = Some (Some (reconciler.path r))).
Proof.
  intros Hw.
  destruct (Reconcile_inv r key)
    as [[Hnone _] | (secret & caCert & configured & webhooks
                     & Hlead & Hsecret & Hca & Hcfg & Hset & Heq & Hrun)];
    [congruence |].
  rewrite Hrun in Hw. injection Hw as <-.
  destruct (setWebhooks_lookup _ _ _ _ _ Hset) as [Hlen Hall].
  exists secret, caCert, configured. repeat (split; [done |]).
  intros i wh Hi. destruct (Hall i wh Hi) as [Hother Hsame]. split; [done |].
  intros Hn. destruct (Hsame Hn) as (svc & Hsvc & Hlook).
  by exists svc, (setWebhook wh svc caCert (Path r)).
Qed.

Lemma Reconcile_update_content_witness :
  Run.updated (Reconcile sampleReconciler "key") = Some sampleUpdate
  /\ exists configured,
       reconciler.vwhlister sampleReconciler !! "approval.webhook" = Some configured
       /\ reconciler.SafeEqual sampleReconciler configured sampleUpdate = inr false.
Proof.
  assert (Run.updated (Reconcile sampleReconciler "key") = Some sampleUpdate) as Hsent
    by (vm_compute; reflexivity).
  split; [exact Hsent |].
  destruct (Reconcile_update_content sampleReconciler "key" sampleUpdate Hsent)
    as (secret & caCert & configured & _ & _ & _ & Hcfg & Hdiff & _).
  by exists configured.
Defined.

(** X14. Once the leader has found the secret with its CA certificate
    and the configuration, the run ends with the missing-service
    error, before any comparison or update, exactly when some webhook
    that bears the configuration's name has no service reference;
    webhooks of other names are not asked for one. *)
Theorem missing_service_reference (r : reconciler.t) (key : string) (secret : Secret.t)
    (caCert : list Byte.byte) (configured : VWC) :
  reconciler.IsLeaderFor r (reconciler.key r) = true ->
  reconciler.secretlister r !! (reconciler.systemNamespace r, reconciler.secretName r)
  = Some secret ->
  Secret.Data secret !! CACert = Some caCert ->
  reconciler.vwhlister r !! NamespacedName.Name (reconciler.key r) = Some configured ->
  (exists wh,
     wh ∈ ValidatingWebhookConfiguration.Webhooks configured
     /\ ValidatingWebhook.Name wh = ValidatingWebhookConfiguration.Name configured
     /\ WebhookClientConfig.Service (ValidatingWebhook.ClientConfig wh) = None)
  <-> Reconcile r key
      = failed (MissingService (ValidatingWebhookConfiguration.Name configured)).
Proof.
  intros Hlead Hsecret Hca Hcfg.
  rewrite (setWebhooks_error _ caCert (Path r)). split.
  - intros Hset. unfold Reconcile, reconcileValidatingWebhook.
    by rewrite Hlead, Hsecret, Hca, Hcfg, Hset.
  - destruct (setWebhooks (ValidatingWebhookConfiguration.Name configured) caCert (Path r)
                          (ValidatingWebhookConfiguration.Webhooks configured))
      as [e | webhooks] eqn:Hset.
    + intros _. by apply setWebhooks_only_error in Hset as ->.
    + rewrite (Reconcile_compared r key secret caCert configured webhooks) by done.
      by destruct (reconciler.SafeEqual r configured (withWebhooks configured webhooks))
        as [err | [|]].
Qed.

Lemma missing_service_reference_witness :
  Reconcile incompleteReconciler "key" = failed (MissingService "approval.webhook").
Proof.
  assert (reconciler.secretlister incompleteReconciler
            !! (reconciler.systemNamespace incompleteReconciler,
                reconciler.secretName incompleteReconciler)
          = Some (certSecret [Byte.x2d])) as Hsecret by (vm_compute; reflexivity).
  assert (Secret.Data (certSecret [Byte.x2d]) !! CACert = Some [Byte.x2d]) as Hca
    by (vm_compute; reflexivity).
  assert (reconciler.vwhlister incompleteReconciler
            !! NamespacedName.Name (reconciler.key incompleteReconciler)
          = Some incompleteConfiguration) as Hcfg by (vm_compute; reflexivity).
  apply (proj1 (missing_service_reference incompleteReconciler "key"
                  (certSecret [Byte.x2d]) [Byte.x2d] incompleteConfiguration
                  eq_refl Hsecret Hca Hcfg)).
  exists (hook "approval.webhook" None). split; [| done].
  apply elem_of_cons. right. apply elem_of_cons. by left.
Defined.

Lemma withWebhooks_again (configured : VWC) (webhooks : list VW) :
  withWebhooks (withWebhooks configured webhooks) webhooks = withWebhooks configured webhooks.
Proof. reflexivity. Qed.

(** X15. Registration settles: when a run has sent an update that the
    client accepted, and the lister then serves the object that was
    sent, the next run of the same reconciler computes that very
    object again, and, the comparison finding an object equal to
    itself, calls no update and returns no error. *)
Theorem Reconcile_settles (r : reconciler.t) (key key' : string) (w : VWC) :
  Reconcile r key = {| Run.err := None; Run.updated := Some w |} ->
  reconciler.SafeEqual r w w = inr true ->
  Reconcile (afterUpdate r w) key' = {| Run.err := None; Run.updated := None |}.
Proof.
  intros Hrun Hrefl.
  destruct (Reconcile_inv r key)
    as [[Hnone _] | (secret & caCert & configured & webhooks
                     & Hlead & Hsecret & Hca & Hcfg & Hset & Heq & Hrun')].
  { rewrite Hrun in Hnone. done. }
  assert (w = withWebhooks configured webhooks) as -> by congruence.
  rewrite (Reconcile_compared (afterUpdate r (withWebhooks configured webhooks)) key'
             secret caCert (withWebhooks configured webhooks) webhooks).
  - simpl. rewrite withWebhooks_again. by rewrite Hrefl.
  - done.
  - done.
  - done.
  - simpl. by rewrite lookup_insert_eq.
  - simpl. apply (setWebhooks_idempotent _ _ _ _ _ Hset).
Qed.

Lemma Reconcile_settles_witness :
  Reconcile (afterUpdate sampleReconciler sampleUpdate) "key"
  = {| Run.err := None; Run.updated := None |}.
Proof.
  apply (Reconcile_settles sampleReconciler "key" "key" sampleUpdate).
  - vm_compute. reflexivity.
  - unfold sampleReconciler, leading, decideEqual. simpl.
    by rewrite bool_decide_eq_true_2.
Defined.

(** X16. A run returns no error only if the reconciler leads, the
    secret is found and holds the CA certificate, the configuration is
    found, every webhook of the configuration's name has a service
    reference and the comparison did not fail; and then either the
    comparison found the configuration equal to the computed one and
    nothing was sent, or it found a difference and the client accepted
    the computed configuration. *)
Theorem Reconcile_success (r : reconciler.t) (key : string) :
  Run.err (Reconcile r key) = None ->
  exists secret caCert configured webhooks,
    reconciler.IsLeaderFor r (reconciler.key r) = true
    /\ reconciler.secretlister r !! (reconciler.systemNamespace r, reconciler.secretName r)
       = Some secret
    /\ Secret.Data secret !! CACert = Some caCert
    /\ reconciler.vwhlister r !! NamespacedName.Name (reconciler.key r) = Some configured
    /\ (forall wh, wh ∈ ValidatingWebhookConfiguration.Webhooks configured ->
          ValidatingWebhook.Name wh = ValidatingWebhookConfiguration.Name configured ->
          is_Some (WebhookClientConfig.Service (ValidatingWebhook.ClientConfig wh)))
    /\ setWebhooks (ValidatingWebhookConfiguration.Name configured) caCert (reconciler.path r)
                   (ValidatingWebhookConfiguration.Webhooks configured) = inr webhooks
    /\ ((reconciler.SafeEqual r configured (withWebhooks configured webhooks) = inr true
         /\ Run.updated (Reconcile r key) = None)
        \/ (reconciler.SafeEqual r configured (withWebhooks configured webhooks) = inr false
            /\ reconciler.clientUpdate r (withWebhooks configured webhooks) = None
            /\ Run.updated (Reconcile r key) = Some (withWebhooks configured webhooks))).
Proof.
  unfold Reconcile, reconcileValidatingWebhook.
  destruct (reconciler.IsLeaderFor r (reconciler.key r)) eqn:Hlead; [| done]. simpl.
  destruct (reconciler.secretlister r !! (reconciler.systemNamespace r, reconciler.secretName r))
    as [secret |] eqn:Hsecret; [| done].
  destruct (Secret.Data secret !! CACert) as [caCert |] eqn:Hca; [| done].
  destruct (reconciler.vwhlister r !! NamespacedName.Name (reconciler.key r))
    as [configured |] eqn:Hcfg; [| done].
  destruct (setWebhooks (ValidatingWebhookConfiguration.Name configured) caCert (Path r)
                        (ValidatingWebhookConfiguration.Webhooks configured))
    as [e | webhooks] eqn:Hset; [done |].
  intros Herr. exists secret, caCert, configured, webhooks.
  repeat (split; [done |]). split; [| split; [done |]].
  - intros wh Hin Hn.
    destruct (WebhookClientConfig.Service (ValidatingWebhook.ClientConfig wh)) eqn:Hsvc;
      [done |].
    assert (setWebhooks (ValidatingWebhookConfiguration.Name configured) caCert (Path r)
                        (ValidatingWebhookConfiguration.Webhooks configured)
            = inl (MissingService (ValidatingWebhookConfiguration.Name configured))) as H
        by (apply setWebhooks_error; by exists wh).
    congruence.
  - destruct (reconciler.SafeEqual r configured (withWebhooks configured webhooks))
      as [err | [|]]; [done | by left |].
    destruct (reconciler.clientUpdate r (withWebhooks configured webhooks)); [done |].
    by right.
Qed.

Lemma Reconcile_success_witness :
  exists configured webhooks,
    reconciler.vwhlister (afterUpdate sampleReconciler sampleUpdate) !! "approval.webhook"
    = Some configured
    /\ reconciler.SafeEqual sampleReconciler configured (withWebhooks configured webhooks)
       = inr true.
Proof.
  assert (Run.err (Reconcile (afterUpdate sampleReconciler sampleUpdate) "key") = None) as Hnil
    by (vm_compute; reflexivity).
  destruct (Reconcile_success (afterUpdate sampleReconciler sampleUpdate) "key" Hnil)
    as (secret & caCert & configured & webhooks & _ & _ & _ & Hcfg & _ & _ & Hend).
  exists configured, webhooks. split; [exact Hcfg |].
  destruct Hend as [[Heq _] | (_ & _ & Hsent)]; [exact Heq |].
  vm_compute in Hsent. discriminate Hsent.
Defined.
